(** * Global Weather Forecasting App: the data pipeline of [app.py]

    A shallow embedding of the four helpers of [src/app.py]
    ([geocode_location], [fetch_weather], [weathercode_to_text],
    [make_daily_dataframe]) together with the fragment of Python, [requests]
    and [pandas] behaviour they rest on, and the properties the written
    specification states about them.

    Python values that come out of [resp.json()] are modelled by the type
    [json]; a Python call that may raise is a computation in the [result]
    monad; the network is an explicit state threaded through the two HTTP
    wrappers. *)

From Stdlib Require Import ZArith String Ascii List Lia.
From Stdlib Require Import Floats.PrimFloat Floats.FloatAxioms.
From Stdlib Require Uint63.
From stdpp Require Import base tactics option list strings.

Local Open Scope string_scope.
Local Open Scope list_scope.
Local Open Scope Z_scope.

Set Warnings "-register-all,-inexact-float".

(** ** Exceptions and results *)

(** The subclasses of [requests.RequestException] the three library calls
    [requests.get], [Response.raise_for_status] and [Response.json] raise. *)
Inductive request_exception : Type :=
| Timeout
| ConnectionError
| HTTPError
| JSONDecodeError
| TooManyRedirects.

(** The Python exceptions that occur in the modelled code. *)
Inductive exn : Type :=
| RequestException (k : request_exception)
| AttributeError
| TypeError
| ValueError
| KeyError
| IndexError
| OverflowError.

(** The outcome of evaluating a Python expression: a value, or a raised
    exception. *)
Inductive result (A : Type) : Type :=
| Returns (a : A)
| Raises (e : exn).

Arguments Returns {A} a.
Arguments Raises {A} e.

#[global] Instance result_ret : MRet result := fun A a => Returns a.

#[global] Instance result_bind : MBind result := fun A B f m =>
  match m with
  | Returns a => f a
  | Raises e => Raises e
  end.

Definition returned {A : Type} (r : result A) : Prop :=
  match r with
  | Returns _ => True
  | Raises _ => False
  end.

(** ** JSON values as Python objects *)

(** What [json.loads] builds: [None], [bool], [int], [float], [str], [list]
    and [dict] with string keys.  A [JDict] lists its items in insertion
    order, as a Python dict keeps them; a [JStr] holds the characters of the
    [str] one by one. *)
Inductive json : Type :=
| JNull
| JBool (b : bool)
| JInt (n : Z)
| JFloat (f : float)
| JStr (s : string)
| JList (l : list json)
| JDict (items : list (string * json)).

(** Python truthiness, as tested by [not x] and [if x]. *)
Definition truthy (v : json) : bool :=
  match v with
  | JNull => false
  | JBool b => b
  | JInt n => negb (n =? 0)
  | JFloat f => negb (PrimFloat.eqb f 0%float)
  | JStr s => negb (String.eqb s "")
  | JList l => match l with [] => false | _ => true end
  | JDict items => match items with [] => false | _ => true end
  end.

(** Lookup of a key among the items of a dict. *)
Fixpoint dict_lookup (items : list (string * json)) (key : string) : option json :=
  match items with
  | [] => None
  | (k, v) :: rest => if String.eqb k key then Some v else dict_lookup rest key
  end.

(** [x.get(key, dflt)]: only a dict has the method. *)
Definition py_get (x : json) (key : string) (dflt : json) : result json :=
  match x with
  | JDict items => Returns (default dflt (dict_lookup items key))
  | _ => Raises AttributeError
  end.

(** The characters of a [str], each as a one-character [str]. *)
Definition str_chars (s : string) : list json :=
  (fun c => JStr (String c EmptyString)) <$> list_ascii_of_string s.

(** [len(x)]. *)
Definition py_len (x : json) : result nat :=
  match x with
  | JList l => Returns (length l)
  | JStr s => Returns (String.length s)
  | JDict items => Returns (length items)
  | _ => Raises TypeError
  end.

(** [x[i]] for a non-negative integer [i]. *)
Definition py_getitem (x : json) (i : nat) : result json :=
  match x with
  | JList l => match l !! i with Some v => Returns v | None => Raises IndexError end
  | JStr s => match str_chars s !! i with Some v => Returns v | None => Raises IndexError end
  | JDict _ => Raises KeyError
  | _ => Raises TypeError
  end.

(** The items [for ... in x] runs over. *)
Definition py_iter (x : json) : result (list json) :=
  match x with
  | JList l => Returns l
  | JStr s => Returns (str_chars s)
  | JDict items => Returns ((fun kv => JStr (fst kv)) <$> items)
  | _ => Raises TypeError
  end.

(** ** [weathercode_to_text] *)

(** The dict literal [mapping] of the function. *)
Definition mapping : list (Z * string) :=
  [ (0, "Clear sky");
    (1, "Mainly clear");
    (2, "Partly cloudy");
    (3, "Overcast");
    (45, "Fog");
    (48, "Depositing rime fog");
    (51, "Drizzle: Light");
    (53, "Drizzle: Moderate");
    (55, "Drizzle: Dense");
    (61, "Rain: Slight");
    (63, "Rain: Moderate");
    (65, "Rain: Heavy");
    (71, "Snow fall: Slight");
    (73, "Snow fall: Moderate");
    (75, "Snow fall: Heavy");
    (80, "Rain showers: Slight");
    (81, "Rain showers: Moderate");
    (82, "Rain showers: Violent");
    (95, "Thunderstorm: Moderate");
    (96, "Thunderstorm with slight hail");
    (99, "Thunderstorm with heavy hail") ].

(** Whether a Python object can be a dict key: lists and dicts are not
    hashable. *)
Definition hashable (v : json) : bool :=
  match v with
  | JList _ | JDict _ => false
  | _ => true
  end.

(** [key == k] for an [int] key [k] of [mapping] (all lie in 0..99): an
    equal [int], the [bool] of that value, or a [float] equal to it. *)
Definition eq_int_key (v : json) (k : Z) : bool :=
  match v with
  | JInt n => n =? k
  | JBool b => (if b then 1 else 0) =? k
  | JFloat f => PrimFloat.eqb f (PrimFloat.of_uint63 (Uint63.of_Z k))
  | _ => false
  end.

(** [d.get(key, dflt)] on a dict with [int] keys. *)
Fixpoint int_dict_get (d : list (Z * string)) (key : json) (dflt : string) : string :=
  match d with
  | [] => dflt
  | (k, s) :: rest => if eq_int_key key k then s else int_dict_get rest key dflt
  end.

Definition weathercode_to_text (code : json) : result string :=
  if hashable code
  then Returns (int_dict_get mapping code "Unknown")
  else Raises TypeError.

(** ** The network and the [requests] calls *)

(** What [requests.get] hands back for one request: a raised
    [RequestException] (timeout, connection failure, ...), or a response with
    its status code and its body as [Response.json] would decode it ([None]
    when the body is not JSON). *)
Record Response : Type := mkResponse {
  status_code : Z;
  json_body : option json
}.

Inductive http_outcome : Type :=
| Fails (k : request_exception)
| Responds (r : Response).

Record request : Type := mkRequest {
  url : string;
  params : list (string * json);
  headers : list (string * string);
  timeout : Z
}.

(** The state of the outside world: the outcomes the collaborators will give
    to the next calls, in order, and the requests issued so far. *)
Record network : Type := mkNetwork {
  pending : list http_outcome;
  sent : list request
}.

(** [requests.get(url, params=..., headers=..., timeout=...)]: one request
    goes out and consumes the next outcome; with nothing left to answer the
    connection fails. *)
Definition requests_get (rq : request) (net : network) : result Response * network :=
  let net' := {| pending := tail (pending net); sent := sent net ++ [rq] |} in
  match pending net with
  | [] => (Raises (RequestException ConnectionError), net')
  | Fails k :: _ => (Raises (RequestException k), net')
  | Responds r :: _ => (Returns r, net')
  end.

(** [resp.raise_for_status()]: [HTTPError] for a 4xx or 5xx status. *)
Definition raise_for_status (resp : Response) : result unit :=
  if (400 <=? status_code resp) && (status_code resp <? 600)
  then Raises (RequestException HTTPError)
  else Returns tt.

(** [resp.json()]: [requests.exceptions.JSONDecodeError] when the body does
    not decode, a subclass of [RequestException] (since requests 2.27). *)
Definition resp_json (resp : Response) : result json :=
  match json_body resp with
  | Some v => Returns v
  | None => Raises (RequestException JSONDecodeError)
  end.

(** [try: body except requests.RequestException: handler]. *)
Definition except_RequestException {A : Type} (body handler : result A) : result A :=
  match body with
  | Raises (RequestException _) => handler
  | _ => body
  end.

Definition NOMINATIM_URL : string := "https://nominatim.openstreetmap.org/search".
Definition OPEN_METEO_URL : string := "https://api.open-meteo.com/v1/forecast".

(** ** [fetch_weather] *)

Definition fetch_weather_request (lat lon : float) (days : Z) : request :=
  {| url := OPEN_METEO_URL;
     params := [ ("latitude", JFloat lat);
                 ("longitude", JFloat lon);
                 ("current_weather", JStr "true");
                 ("daily", JStr "temperature_2m_max,temperature_2m_min,precipitation_sum,weathercode");
                 ("timezone", JStr "auto");
                 ("forecast_days", JInt days) ];
     headers := [];
     timeout := 10 |}.

(** The function returns a Python object: the decoded payload, or [None]
    ([JNull]).  The [st.cache_data] decorator memoises returned values and
    lets exceptions through; it is not modelled. *)
Definition fetch_weather (lat lon : float) (days : Z) (net : network) : result json * network :=
  let '(got, net') := requests_get (fetch_weather_request lat lon days) net in
  (except_RequestException
     (resp ← got;
      _ ← raise_for_status resp;
      resp_json resp)
     (Returns JNull),
   net').

(** ** [geocode_location] *)

Record Location : Type := mkLocation {
  lat : float;
  lon : float;
  name : json
}.

Definition geocode_request (query : string) : request :=
  {| url := NOMINATIM_URL;
     params := [ ("q", JStr query);
                 ("format", JStr "json");
                 ("limit", JInt 1);
                 ("addressdetails", JInt 0) ];
     headers := [ ("User-Agent", "streamlit-weather-app/1.0 (+https://example.com)") ];
     timeout := 10 |}.

Definition isinstance_list (v : json) : bool :=
  match v with
  | JList _ => true
  | _ => false
  end.

Section Resolver.

(** The builtin [float] on a [str] ([None]: [ValueError]) and on an [int]
    ([None]: [OverflowError]); decimal-to-binary conversion is Python's and
    stays a parameter. *)
Variable float_of_str : string -> option float.
Variable float_of_int : Z -> option float.

(** [float(x)]. *)
Definition py_float (x : json) : result float :=
  match x with
  | JFloat f => Returns f
  | JInt n => match float_of_int n with Some f => Returns f | None => Raises OverflowError end
  | JBool b => Returns (if b then 1%float else 0%float)
  | JStr s => match float_of_str s with Some f => Returns f | None => Raises ValueError end
  | JNull | JList _ | JDict _ => Raises TypeError
  end.

Definition geocode_location (query : string) (net : network) : result (option Location) * network :=
  let '(got, net') := requests_get (geocode_request query) net in
  (except_RequestException
     (resp ← got;
      _ ← raise_for_status resp;
      data ← resp_json resp;
      nonempty ← (if isinstance_list data
                  then n ← py_len data; Returns (0 <? n)%nat
                  else Returns false);
      if (nonempty : bool)
      then item ← py_getitem data 0;
           lat_raw ← py_get item "lat" JNull;
           lat ← py_float lat_raw;
           lon_raw ← py_get item "lon" JNull;
           lon ← py_float lon_raw;
           display_name ← py_get item "display_name" (JStr query);
           Returns (Some {| lat := lat; lon := lon; name := display_name |})
      else Returns None)
     (Returns None),
   net').

End Resolver.

(** ** [make_daily_dataframe] *)

(** One element of the list [rows], a dict with the five keys of the source;
    [D] is the type of the ["date"] cell. *)
Record Row (D : Type) : Type := mkRow {
  date : D;
  tmax : json;
  tmin : json;
  precip_mm : json;
  weather_text : json
}.

Arguments mkRow {D} _ _ _ _ _.
Arguments date {D} _.
Arguments tmax {D} _.
Arguments tmin {D} _.
Arguments precip_mm {D} _.
Arguments weather_text {D} _.

(** A pandas frame over the default index [0, 1, ...]: its column labels and
    its rows in index order.  A cell is shown as the Python object it was
    built from; [None] is the missing value (pandas stores it as [NaN] in a
    numeric column). *)
Record DataFrame (D : Type) : Type := mkDataFrame {
  columns : list string;
  records : list (Row D)
}.

Arguments mkDataFrame {D} _ _.
Arguments columns {D} _.
Arguments records {D} _.

(** [pd.DataFrame(rows)] for a list of dicts: the columns are the keys that
    occur, so an empty list gives a frame with no column at all. *)
Definition pd_DataFrame (rows : list (Row json)) : DataFrame json :=
  {| columns := match rows with
                | [] => []
                | _ :: _ => ["date"; "tmax"; "tmin"; "precip_mm"; "weather_text"]
                end;
     records := rows |}.

(** [df["date"]]: [KeyError] when the frame has no such column. *)
Definition df_getitem_date (df : DataFrame json) : result (list json) :=
  if bool_decide ("date" ∈ columns df)
  then Returns (date <$> records df)
  else Raises KeyError.

(** [seq[i] if i < len(seq) else None]. *)
Definition item_or_None (seq : json) (i : nat) : result json :=
  n ← py_len seq;
  if (i <? n)%nat then py_getitem seq i else Returns JNull.

(** [weathercode_to_text(wcode[i]) if i < len(wcode) else None]. *)
Definition text_or_None (wcode : json) (i : nat) : result json :=
  n ← py_len wcode;
  if (i <? n)%nat
  then code ← py_getitem wcode i;
       text ← weathercode_to_text code;
       Returns (JStr text)
  else Returns JNull.

(** The body of the [for i, d in enumerate(dates)] loop, from index [i] on,
    appending to [rows]. *)
Fixpoint daily_rows (tmax tmin precip wcode : json) (i : nat) (dates : list json)
    (rows : list (Row json)) : result (list (Row json)) :=
  match dates with
  | [] => Returns rows
  | d :: rest =>
      a ← item_or_None tmax i;
      b ← item_or_None tmin i;
      c ← item_or_None precip i;
      w ← text_or_None wcode i;
      daily_rows tmax tmin precip wcode (S i) rest (rows ++ [mkRow d a b c w])
  end.

(** ** Datetime cells and [pandas.to_datetime] *)

(** A cell of a [datetime64[ns]] column, after pandas: the missing datetime
    [NaT], or a timestamp, read as its calendar day (year, month, day), its
    time of day in nanoseconds since midnight, and the zone of a zone-aware
    timestamp. *)
Inductive datetime64 : Type :=
| NaT
| Timestamp (day : Z * Z * Z) (time_of_day : Z) (tz : option string).

Definition digit_of (c : ascii) : option Z :=
  let n := Z.of_nat (nat_of_ascii c) in
  if (48 <=? n) && (n <=? 57) then Some (n - 48) else None.

Fixpoint digits_to_Z (cs : list ascii) (acc : Z) : option Z :=
  match cs with
  | [] => Some acc
  | c :: rest => d ← digit_of c; digits_to_Z rest (10 * acc + d)
  end.

Definition leap_year (y : Z) : bool :=
  ((y mod 4 =? 0) && negb (y mod 100 =? 0)) || (y mod 400 =? 0).

Definition days_in_month (y m : Z) : Z :=
  if m =? 2 then (if leap_year y then 29 else 28)
  else if (m =? 4) || (m =? 6) || (m =? 9) || (m =? 11) then 30
  else 31.

(** The day an ISO 8601 date [YYYY-MM-DD] names, for a date of the calendar
    within the years a [datetime64[ns]] holds in full. *)
Definition iso_day (cs : list ascii) : option (Z * Z * Z) :=
  match cs with
  | [y1; y2; y3; y4; s1; m1; m2; s2; d1; d2] =>
      if Ascii.eqb s1 "-" && Ascii.eqb s2 "-"
      then y ← digits_to_Z [y1; y2; y3; y4] 0;
           m ← digits_to_Z [m1; m2] 0;
           d ← digits_to_Z [d1; d2] 0;
           if (1678 <=? y) && (y <=? 2261) && (1 <=? m) && (m <=? 12)
              && (1 <=? d) && (d <=? days_in_month y m)
           then Some (y, m, d) else None
      else None
  | _ => None
  end.

(** The nanoseconds since midnight of a clock time [HH:MM]. *)
Definition iso_minute (cs : list ascii) : option Z :=
  match cs with
  | [h1; h2; colon; m1; m2] =>
      if Ascii.eqb colon ":"
      then h ← digits_to_Z [h1; h2] 0;
           m ← digits_to_Z [m1; m2] 0;
           if (h <? 24) && (m <? 60)
           then Some ((h * 60 + m) * 60 * 1000000000) else None
      else None
  | _ => None
  end.

(** The timestamp of a [str] cell [YYYY-MM-DD]: midnight of that day, with
    no zone. *)
Definition date_only (v : json) : option datetime64 :=
  match v with
  | JStr s => d ← iso_day (list_ascii_of_string s); Some (Timestamp d 0 None)
  | _ => None
  end.

(** The timestamp of a [str] cell [YYYY-MM-DDTHH:MM]: that time of that day,
    with no zone. *)
Definition date_and_minute (v : json) : option datetime64 :=
  match v with
  | JStr s =>
      let cs := list_ascii_of_string s in
      d ← iso_day (take 10 cs);
      match drop 10 cs with
      | sep :: clock =>
          if Ascii.eqb sep "T"
          then t ← iso_minute clock; Some (Timestamp d t None)
          else None
      | [] => None
      end
  | _ => None
  end.

(** [df["date"] = s]: the cells of [s] are aligned on the index, a label
    that [s] lacks gets [NaT]. *)
Definition df_setitem_date (df : DataFrame json) (s : list datetime64) : DataFrame datetime64 :=
  {| columns := if bool_decide ("date" ∈ columns df)
                then columns df
                else columns df ++ ["date"];
     records := imap (fun i r => mkRow (default NaT (s !! i))
                                       (tmax r) (tmin r) (precip_mm r) (weather_text r))
                     (records df) |}.

Section Normalizer.

(** [pandas.to_datetime] on a column, after pandas for the two ISO 8601
    shapes the weather service writes: a column of [YYYY-MM-DD] strings and
    a column of [YYYY-MM-DDTHH:MM] strings are read cell by cell.  What
    pandas does with any other column (other formats, mixed shapes, cells
    that are not strings) stays a parameter. *)
Variable to_datetime_other : list json -> result (list datetime64).

Definition to_datetime (col : list json) : result (list datetime64) :=
  match mapM date_only col with
  | Some cells => Returns cells
  | None =>
      match mapM date_and_minute col with
      | Some cells => Returns cells
      | None => to_datetime_other col
      end
  end.

Definition make_daily_dataframe (daily_json : json) : result (option (DataFrame datetime64)) :=
  if negb (truthy daily_json) then Returns None
  else
    dates ← py_get daily_json "time" (JList []);
    tmax ← py_get daily_json "temperature_2m_max" (JList []);
    tmin ← py_get daily_json "temperature_2m_min" (JList []);
    precip ← py_get daily_json "precipitation_sum" (JList []);
    wcode ← py_get daily_json "weathercode" (JList []);
    ds ← py_iter dates;
    rows ← daily_rows tmax tmin precip wcode 0 ds [];
    let df := pd_DataFrame rows in
    col ← df_getitem_date df;
    parsed ← to_datetime col;
    Returns (Some (df_setitem_date df parsed)).

End Normalizer.

(** ** [st.cache_data] *)

(** The decorator of [geocode_location] and [fetch_weather], left out of the
    two definitions above, after Streamlit: a call whose arguments are in
    the cache returns the stored value and does not run the function; a call
    that misses runs it and stores the value it returns, [None] included; a
    raised exception goes through and nothing is stored.  No entry expires
    (no [ttl], no [max_entries]). *)
Section Cache_data.

Context {K V : Type}.
Variable same_key : K -> K -> bool.

Fixpoint cache_read (cache : list (K * V)) (key : K) : option V :=
  match cache with
  | [] => None
  | (k, v) :: rest => if same_key k key then Some v else cache_read rest key
  end.

Definition cache_data (func : K -> network -> result V * network)
    (key : K) (cache : list (K * V)) (net : network) : result V * (list (K * V) * network) :=
  match cache_read cache key with
  | Some v => (Returns v, (cache, net))
  | None =>
      let '(r, net') := func key net in
      match r with
      | Returns v => (r, ((key, v) :: cache, net'))
      | Raises _ => (r, (cache, net'))
      end
  end.

End Cache_data.

(** What outlives one run of the script: the two caches and the network. *)
Record app_state : Type := mkAppState {
  geocode_memo : list (string * option Location);
  weather_memo : list (float * float * Z * json);
  world : network
}.

(** The arguments [(lat, lon, days)] of two calls make the same key: floats
    are keyed by their IEEE 754 encoding. *)
Definition same_weather_key (k1 k2 : float * float * Z) : bool :=
  let '(lat1, lon1, days1) := k1 in
  let '(lat2, lon2, days2) := k2 in
  PrimFloat.Leibniz.eqb lat1 lat2 && PrimFloat.Leibniz.eqb lon1 lon2 && (days1 =? days2).

Definition cached_fetch_weather (lat lon : float) (days : Z) (st : app_state) : result json * app_state :=
  let '(r, (memo, net')) :=
    cache_data same_weather_key (fun '(la, lo, d) => fetch_weather la lo d)
               (lat, lon, days) (weather_memo st) (world st) in
  (r, {| geocode_memo := geocode_memo st; weather_memo := memo; world := net' |}).

(** ** The script run on a submission *)

(** The calls that write to the page, one constructor per call site. *)
Inductive notice : Type :=
| Info_press_get_forecast
| Info_enter_location
| Error_location_not_found
| Success_location (pretty : json) (lat lon : float)
| Error_fetch_failed
| Subheader_current_weather
| Markdown_current_weather (temp wind wind_dir time_local : json)
| Info_no_current_weather
| Info_no_daily_forecast
| Markdown_divider
| Caption_apis.

(** How a run ends: at the end of the script, on an uncaught exception, or
    by entering the block that draws the forecast [df] (table, charts and
    expanders: Streamlit's and pandas' work, which is not followed). *)
Inductive ending : Type :=
| Done
| Aborted (e : exn)
| Draws (df : DataFrame datetime64).

(** [c.isspace()] for a character below 256. *)
Definition py_isspace (c : ascii) : bool :=
  let n := nat_of_ascii c in
  ((9 <=? n) && (n <=? 13) || (28 <=? n) && (n <=? 32) || (n =? 133) || (n =? 160))%nat.

Fixpoint lstrip (cs : list ascii) : list ascii :=
  match cs with
  | [] => []
  | c :: rest => if py_isspace c then lstrip rest else cs
  end.

(** [s.strip()]. *)
Definition str_strip (s : string) : string :=
  string_of_list_ascii (rev (lstrip (rev (lstrip (list_ascii_of_string s))))).

(** [df.empty]. *)
Definition df_empty {D : Type} (df : DataFrame D) : bool :=
  match columns df, records df with
  | _ :: _, _ :: _ => false
  | _, _ => true
  end.

(** The current-weather part of the page, lines 148 to 158. *)
Definition current_weather_notices (current : json) : list notice * option exn :=
  if truthy current
  then match (temp ← py_get current "temperature" JNull;
              wind ← py_get current "windspeed" JNull;
              wind_dir ← py_get current "winddirection" JNull;
              time_iso ← py_get current "time" JNull;
              Returns (Markdown_current_weather temp wind wind_dir time_iso)) with
       | Returns shown => ([Subheader_current_weather; shown], None)
       | Raises e => ([Subheader_current_weather], Some e)
       end
  else ([Info_no_current_weather], None).

Section Script.

Variable float_of_str : string -> option float.
Variable float_of_int : Z -> option float.
Variable to_datetime_other : list json -> result (list datetime64).

Definition cached_geocode_location (query : string) (st : app_state) : result (option Location) * app_state :=
  let '(r, (memo, net')) :=
    cache_data String.eqb (geocode_location float_of_str float_of_int)
               query (geocode_memo st) (world st) in
  (r, {| geocode_memo := memo; weather_memo := weather_memo st; world := net' |}).

(** Lines 147 to 192, for a truthy payload [data]. *)
Definition weather_page (data : json) : list notice * ending :=
  match py_get data "current_weather" (JDict []) with
  | Raises e => ([], Aborted e)
  | Returns current =>
      match current_weather_notices current with
      | (shown, Some e) => (shown, Aborted e)
      | (shown, None) =>
          match (daily ← py_get data "daily" (JDict []);
                 make_daily_dataframe to_datetime_other daily) with
          | Raises e => (shown, Aborted e)
          | Returns None => (shown ++ [Info_no_daily_forecast], Done)
          | Returns (Some df) =>
              if df_empty df
              then (shown ++ [Info_no_daily_forecast], Done)
              else (shown, Draws df)
          end
      end
  end.

(** The script from line 127 on: [submit] is the state of the button,
    [location_input] and [forecast_days] are the two widgets. *)
Definition run_script (submit : bool) (location_input : option string) (forecast_days : Z)
    (st : app_state) : (list notice * ending) * app_state :=
  if negb submit then (([Info_press_get_forecast], Done), st)
  else
    let q := str_strip (default "" location_input) in
    if String.eqb q "" then (([Info_enter_location], Done), st)
    else
      let '(found, st1) := cached_geocode_location q st in
      match found with
      | Raises e => (([], Aborted e), st1)
      | Returns None => (([Error_location_not_found], Done), st1)
      | Returns (Some loc) =>
          let located := [Success_location (name loc) (lat loc) (lon loc)] in
          let '(fetched, st2) := cached_fetch_weather (lat loc) (lon loc) forecast_days st1 in
          match fetched with
          | Raises e => ((located, Aborted e), st2)
          | Returns data =>
              if negb (truthy data)
              then ((located ++ [Error_fetch_failed; Markdown_divider; Caption_apis], Done), st2)
              else
                match weather_page data with
                | (shown, Done) =>
                    ((located ++ shown ++ [Markdown_divider; Caption_apis], Done), st2)
                | (shown, halted) => ((located ++ shown, halted), st2)
                end
          end
      end.

End Script.

(** ** Instances of the parameters, for evaluating the model *)

(** [float] on an [int] in the range where the conversion is exact. *)
Definition exact_float_of_int (n : Z) : option float :=
  if Z.abs n <=? 2 ^ 53
  then let f := PrimFloat.of_uint63 (Uint63.of_Z (Z.abs n)) in
       Some (if n <? 0 then PrimFloat.opp f else f)
  else None.

Fixpoint split_at_dot (cs : list ascii) : list ascii * option (list ascii) :=
  match cs with
  | [] => ([], None)
  | c :: rest =>
      if Ascii.eqb c "."
      then ([], Some rest)
      else let '(whole, frac) := split_at_dot rest in (c :: whole, frac)
  end.

(** [float] on the plain decimal numerals [-ddd.ddd] of at most fifteen
    digits: numerator and power of ten are exact floats, so the one division
    rounds correctly. *)
Definition decimal_float_of_str (s : string) : option float :=
  let cs := list_ascii_of_string s in
  let '(negative, body) :=
    match cs with
    | c :: rest => if Ascii.eqb c "-" then (true, rest) else (false, cs)
    | [] => (false, cs)
    end in
  let '(whole, frac) := split_at_dot body in
  let frac_digits := default [] frac in
  if (length whole =? 0)%nat || (15 <? length whole + length frac_digits)%nat
  then None
  else
    m ← digits_to_Z (whole ++ frac_digits) 0;
    let q := PrimFloat.div (PrimFloat.of_uint63 (Uint63.of_Z m))
                           (PrimFloat.of_uint63 (Uint63.of_Z (10 ^ Z.of_nat (length frac_digits)))) in
    Some (if negative : bool then PrimFloat.opp q else q).

(** No column beyond the two ISO shapes is accepted. *)
Definition rejecting_other_formats (col : list json) : result (list datetime64) :=
  Raises ValueError.

(** ** Vocabulary of the properties *)

(** The codes that are keys of [mapping]. *)
Definition known_codes : list Z := fst <$> mapping.

(** The entry of a daily block under [key], read as [.get(key, [])], is the
    list [seq]: the key holds that list, or is missing and [seq] is empty. *)
Definition seq_entry (items : list (string * json)) (key : string) (seq : list json) : Prop :=
  default (JList []) (dict_lookup items key) = JList seq.

(** The four per-day components of the daily block. *)
Inductive component : Type :=
| Max_temperature
| Min_temperature
| Precipitation
| Weather_code.

Definition component_key (c : component) : string :=
  match c with
  | Max_temperature => "temperature_2m_max"
  | Min_temperature => "temperature_2m_min"
  | Precipitation => "precipitation_sum"
  | Weather_code => "weathercode"
  end.

(** The cell of a record that is filled from the component. *)
Definition component_cell {D : Type} (c : component) (r : Row D) : json :=
  match c with
  | Max_temperature => tmax r
  | Min_temperature => tmin r
  | Precipitation => precip_mm r
  | Weather_code => weather_text r
  end.

(** A daily block whose date entry and four component entries are lists, the
    weather codes being hashable objects (numbers, strings, [None]). *)
Definition daily_block (items : list (string * json))
    (dates : list json) (seqs : component -> list json) : Prop :=
  seq_entry items "time" dates /\
  (forall c, seq_entry items (component_key c) (seqs c)) /\
  Forall (fun code => hashable code = true) (seqs Weather_code).

(** The condition cell of day [i]: the text of the code at index [i], or
    [None] past the end of the codes. *)
Definition condition_cell (codes : list json) (i : nat) : json :=
  match codes !! i with
  | Some code => JStr (int_dict_get mapping code "Unknown")
  | None => JNull
  end.

(** The row the loop builds for day [i] out of list-valued components. *)
Definition row_of_day (seqs : component -> list json) (i : nat) (d : json) : Row json :=
  mkRow d
        (default JNull (seqs Max_temperature !! i))
        (default JNull (seqs Min_temperature !! i))
        (default JNull (seqs Precipitation !! i))
        (condition_cell (seqs Weather_code) i).

(** The record of day [i] once the date column has been converted to the
    cells [parsed]. *)
Definition record_of_day (parsed : list datetime64)
    (seqs : component -> list json) (i : nat) : Row datetime64 :=
  mkRow (default NaT (parsed !! i))
        (default JNull (seqs Max_temperature !! i))
        (default JNull (seqs Min_temperature !! i))
        (default JNull (seqs Precipitation !! i))
        (condition_cell (seqs Weather_code) i).

(** The raw date [v] is the string that writes the day [d] as
    [YYYY-MM-DD]. *)
Definition writes_day (v : json) (d : Z * Z * Z) : Prop :=
  exists s : string, v = JStr s /\ iso_day (list_ascii_of_string s) = Some d.

(** A datetime cell that stands for a calendar date: midnight, no zone. *)
Definition calendar_date (cell : datetime64) : Prop :=
  exists d : Z * Z * Z, cell = Timestamp d 0 None.

(** The status codes [raise_for_status] rejects. *)
Definition rejected_status (resp : Response) : Prop :=
  400 <= status_code resp < 600.

(** ** Sample payloads *)

(** The daily block of the specification's round-trip scenario. *)
Definition round_trip_daily : json :=
  JDict [ ("time", JList [JStr "2024-01-01"; JStr "2024-01-02"]);
          ("temperature_2m_max", JList [JFloat 10.0; JFloat 12.0]);
          ("temperature_2m_min", JList [JFloat 2.0; JFloat 3.0]);
          ("precipitation_sum", JList [JFloat 0.0; JFloat 5.0]);
          ("weathercode", JList [JInt 0; JInt 61]) ].

(** Three days of data, with a maximum for the first day only and no
    precipitation entry. *)
Definition three_day_dates : list json :=
  [JStr "2024-06-01"; JStr "2024-06-02"; JStr "2024-06-03"].

Definition three_day_seqs (c : component) : list json :=
  match c with
  | Max_temperature => [JFloat 21.5]
  | Min_temperature => [JFloat 11.0; JFloat 12.5; JNull]
  | Precipitation => []
  | Weather_code => [JInt 2; JInt 80]
  end.

Definition three_day_items : list (string * json) :=
  [ ("time", JList three_day_dates);
    ("temperature_2m_max", JList (three_day_seqs Max_temperature));
    ("temperature_2m_min", JList (three_day_seqs Min_temperature));
    ("weathercode", JList (three_day_seqs Weather_code)) ].

(** A forecast payload whose daily block holds those three days. *)
Definition three_day_payload : list (string * json) :=
  [ ("latitude", JFloat 52.52);
    ("longitude", JFloat 13.41);
    ("current_weather", JDict [ ("temperature", JFloat 18.3);
                                ("windspeed", JFloat 9.4);
                                ("winddirection", JInt 250);
                                ("time", JStr "2024-06-01T12:00") ]);
    ("daily", JDict three_day_items) ].

(** One geocoding candidate with a display name, one without. *)
Definition paris_candidate : json :=
  JDict [ ("lat", JStr "48.8566"); ("lon", JStr "2.3522");
          ("display_name", JStr "Paris, France") ].

Definition unnamed_candidate : json :=
  JDict [ ("lat", JStr "24.8607"); ("lon", JStr "67.0011") ].

(** A network that answers the next request with status [status] and the
    JSON body [body]. *)
Definition answering (status : Z) (body : json) : network :=
  {| pending := [Responds (mkResponse status (Some body))]; sent := [] |}.

(** ** Vocabulary of the further properties *)

(** The objects [len] rejects: [None], booleans and numbers. *)
Definition unsized (v : json) : bool :=
  match v with
  | JNull | JBool _ | JInt _ | JFloat _ => true
  | _ => false
  end.

(** A state with empty caches over the network [net]. *)
Definition fresh_state (net : network) : app_state :=
  {| geocode_memo := []; weather_memo := []; world := net |}.

(** The state [st] with the network replaced by [net]. *)
Definition with_world (st : app_state) (net : network) : app_state :=
  {| geocode_memo := geocode_memo st; weather_memo := weather_memo st; world := net |}.

(** The frame of the three sample days. *)
Definition three_day_frame : DataFrame datetime64 :=
  {| columns := ["date"; "tmax"; "tmin"; "precip_mm"; "weather_text"];
     records :=
       [ mkRow (Timestamp (2024, 6, 1) 0 None) (JFloat 21.5) (JFloat 11.0) JNull
               (JStr "Partly cloudy");
         mkRow (Timestamp (2024, 6, 2) 0 None) JNull (JFloat 12.5) JNull
               (JStr "Rain showers: Slight");
         mkRow (Timestamp (2024, 6, 3) 0 None) JNull JNull JNull JNull ] |}.

(** A block with the date of a day that does not exist. *)
Definition no_such_day_items : list (string * json) :=
  [ ("time", JList [JStr "2023-02-29"]);
    ("temperature_2m_max", JList [JFloat 9.5]) ].

Definition no_such_day_seqs (c : component) : list json :=
  match c with
  | Max_temperature => [JFloat 9.5]
  | _ => []
  end.

(** A block whose precipitation entry is [null]. *)
Definition null_precipitation_items : list (string * json) :=
  [ ("time", JList three_day_dates);
    ("temperature_2m_max", JList (three_day_seqs Max_temperature));
    ("precipitation_sum", JNull) ].

Definition null_precipitation_seqs (c : component) : list json :=
  match c with
  | Max_temperature => three_day_seqs Max_temperature
  | _ => []
  end.

(** A block with a [null] weather code on the second of three days. *)
Definition null_code_seqs (c : component) : list json :=
  match c with
  | Weather_code => [JInt 3; JNull]
  | _ => []
  end.

Definition null_code_items : list (string * json) :=
  [ ("time", JList three_day_dates);
    ("weathercode", JList (null_code_seqs Weather_code)) ].

(** The state after a lookup of "Lahore" that timed out. *)
Definition after_timeout : app_state :=
  {| geocode_memo := [("Lahore", None)];
     weather_memo := [];
     world := {| pending := []; sent := [geocode_request "Lahore"] |} |}.

(** The state after a forecast request for Berlin that timed out. *)
Definition after_fetch_timeout : app_state :=
  {| geocode_memo := [];
     weather_memo := [(52.52%float, 13.41%float, 7, JNull)];
     world := {| pending := []; sent := [fetch_weather_request 52.52 13.41 7] |} |}.

(** A state that remembers Paris. *)
Definition knows_paris (net : network) : app_state :=
  {| geocode_memo :=
       [("Paris", Some {| lat := 48.8566; lon := 2.3522; name := JStr "Paris, France" |})];
     weather_memo := [];
     world := net |}.

(** A payload with current conditions and a daily block that has no date. *)
Definition dateless_payload : list (string * json) :=
  [ ("current_weather", JDict [ ("temperature", JFloat 18.3);
                                ("windspeed", JFloat 9.4);
                                ("winddirection", JInt 250);
                                ("time", JStr "2024-06-01T12:00") ]);
    ("daily", JDict [("time", JList [])]) ].

(** * Properties *)

(** ** Evaluating the model *)

Example weathercode_overcast : weathercode_to_text (JInt 3) = Returns "Overcast".
Proof. reflexivity. Qed.

Example weathercode_float_key :
  weathercode_to_text (JFloat 61.0%float) = Returns "Rain: Slight".
Proof. reflexivity. Qed.

Example decimal_float_of_str_paris :
  decimal_float_of_str "48.8566" = Some 48.8566%float /\
  decimal_float_of_str "-0.1276" = Some (-0.1276)%float /\
  decimal_float_of_str "north" = None.
Proof. repeat split; reflexivity. Qed.

Example to_datetime_two_days (other : list json -> result (list datetime64)) :
  to_datetime other [JStr "2024-01-01"; JStr "2024-01-02"]
  = Returns [Timestamp (2024, 1, 1) 0 None; Timestamp (2024, 1, 2) 0 None].
Proof. reflexivity. Qed.

Example to_datetime_six_o_clock (other : list json -> result (list datetime64)) :
  to_datetime other [JStr "2024-06-01T06:00"]
  = Returns [Timestamp (2024, 6, 1) 21600000000000 None].
Proof. reflexivity. Qed.

Example to_datetime_no_such_day :
  to_datetime rejecting_other_formats [JStr "2023-02-29"] = Raises ValueError.
Proof. reflexivity. Qed.

(** ** The weather code translator *)

Lemma int_dict_get_unknown (d : list (Z * string)) (code : Z) (dflt : string) :
  code ∉ (fst <$> d) -> int_dict_get d (JInt code) dflt = dflt.
Proof.
  induction d as [|[k s] d IH]; intros Hnot; [reflexivity|].
  cbn in *. apply not_elem_of_cons in Hnot as [Hne Hnot].
  destruct (Z.eqb_spec code k); [contradiction|]. auto.
Qed.

Lemma negative_code_unknown (code : Z) : code < 0 -> code ∉ known_codes.
Proof.
  intros Hneg Hin. unfold known_codes in Hin. cbn in Hin.
  repeat (apply elem_of_cons in Hin as [->|Hin]; [lia|]).
  by apply elem_of_nil in Hin.
Qed.

(** C2.  On an integer code the translator never raises; each of the
    twenty-one codes of the table gives its description, and every other
    integer gives "Unknown". *)
Theorem weathercode_to_text_total_on_int :
  (forall code : Z, returned (weathercode_to_text (JInt code))) /\
  (forall code : Z, code ∉ known_codes ->
     weathercode_to_text (JInt code) = Returns "Unknown") /\
  (forall code : Z, code < 0 ->
     weathercode_to_text (JInt code) = Returns "Unknown") /\
  weathercode_to_text (JInt 0) = Returns "Clear sky" /\
  weathercode_to_text (JInt 1) = Returns "Mainly clear" /\
  weathercode_to_text (JInt 2) = Returns "Partly cloudy" /\
  weathercode_to_text (JInt 3) = Returns "Overcast" /\
  weathercode_to_text (JInt 45) = Returns "Fog" /\
  weathercode_to_text (JInt 48) = Returns "Depositing rime fog" /\
  weathercode_to_text (JInt 51) = Returns "Drizzle: Light" /\
  weathercode_to_text (JInt 53) = Returns "Drizzle: Moderate" /\
  weathercode_to_text (JInt 55) = Returns "Drizzle: Dense" /\
  weathercode_to_text (JInt 61) = Returns "Rain: Slight" /\
  weathercode_to_text (JInt 63) = Returns "Rain: Moderate" /\
  weathercode_to_text (JInt 65) = Returns "Rain: Heavy" /\
  weathercode_to_text (JInt 71) = Returns "Snow fall: Slight" /\
  weathercode_to_text (JInt 73) = Returns "Snow fall: Moderate" /\
  weathercode_to_text (JInt 75) = Returns "Snow fall: Heavy" /\
  weathercode_to_text (JInt 80) = Returns "Rain showers: Slight" /\
  weathercode_to_text (JInt 81) = Returns "Rain showers: Moderate" /\
  weathercode_to_text (JInt 82) = Returns "Rain showers: Violent" /\
  weathercode_to_text (JInt 95) = Returns "Thunderstorm: Moderate" /\
  weathercode_to_text (JInt 96) = Returns "Thunderstorm with slight hail" /\
  weathercode_to_text (JInt 99) = Returns "Thunderstorm with heavy hail".
Proof.
  assert (Hunknown : forall code : Z, code ∉ known_codes ->
            weathercode_to_text (JInt code) = Returns "Unknown").
  { intros code Hnot. unfold weathercode_to_text. cbn [hashable].
    f_equal. now apply int_dict_get_unknown. }
  split; [intros code; exact I|].
  split; [exact Hunknown|].
  split; [intros code Hneg; apply Hunknown, negative_code_unknown, Hneg|].
  repeat split; reflexivity.
Qed.

(** The codes the specification lists as unassigned, a negative code and
    code 1000 all fall outside the table. *)
Lemma weathercode_to_text_unassigned :
  Forall (fun code => weathercode_to_text (JInt code) = Returns "Unknown")
         [56; 57; 66; 67; 77; 85; 86; 1000; -1; -45].
Proof.
  destruct weathercode_to_text_total_on_int as (_ & Hunknown & _ & _).
  repeat (apply Forall_cons; split;
          [apply Hunknown; vm_compute; intros Hin;
           repeat (apply elem_of_cons in Hin as [Heq|Hin]; [discriminate Heq|]);
           by apply elem_of_nil in Hin|]).
  constructor.
Defined.

(** ** The loop of the normalizer *)

Lemma item_or_None_list (l : list json) (i : nat) :
  item_or_None (JList l) i = Returns (default JNull (l !! i)).
Proof.
  unfold item_or_None. cbn [py_len py_getitem mbind result_bind].
  destruct (Nat.ltb_spec i (length l)) as [Hlt|Hge].
  - destruct (lookup_lt_is_Some_2 l i Hlt) as [v Hv]. by rewrite Hv.
  - by rewrite (lookup_ge_None_2 l i Hge).
Qed.

Lemma text_or_None_list (codes : list json) (i : nat) :
  Forall (fun code => hashable code = true) codes ->
  text_or_None (JList codes) i = Returns (condition_cell codes i).
Proof.
  intros Hhash. unfold condition_cell, text_or_None. cbn [py_len py_getitem mbind result_bind].
  destruct (Nat.ltb_spec i (length codes)) as [Hlt|Hge].
  - destruct (lookup_lt_is_Some_2 codes i Hlt) as [code Hcode]. rewrite Hcode.
    cbn [mbind result_bind]. unfold weathercode_to_text.
    by rewrite (proj1 (Forall_lookup _ _) Hhash i code Hcode).
  - by rewrite (lookup_ge_None_2 codes i Hge).
Qed.

(** Over list-valued components the loop appends one row per date, in the
    order of the dates. *)
Lemma daily_rows_lists (seqs : component -> list json) :
  Forall (fun code => hashable code = true) (seqs Weather_code) ->
  forall (dates : list json) (i : nat) (rows : list (Row json)),
    daily_rows (JList (seqs Max_temperature)) (JList (seqs Min_temperature))
               (JList (seqs Precipitation)) (JList (seqs Weather_code)) i dates rows
    = Returns (rows ++ imap (fun j d => row_of_day seqs (i + j) d) dates).
Proof.
  intros Hhash dates. induction dates as [|d dates IH]; intros i rows.
  - cbn. by rewrite app_nil_r.
  - cbn [daily_rows]. rewrite !item_or_None_list, (text_or_None_list _ i Hhash).
    cbn [mbind result_bind]. rewrite IH. f_equal.
    rewrite <- app_assoc. f_equal. cbn.
    rewrite Nat.add_0_r. f_equal.
    apply imap_ext. intros j x _. cbn. by rewrite Nat.add_succ_r.
Qed.

(** ** The normalizer on a well-formed daily block *)

Lemma pd_DataFrame_columns (rows : list (Row json)) :
  rows ≠ [] ->
  pd_DataFrame rows
  = mkDataFrame ["date"; "tmax"; "tmin"; "precip_mm"; "weather_text"] rows.
Proof. by destruct rows. Qed.

Lemma seq_entry_truthy (items : list (string * json)) (key : string) (seq : list json) :
  seq_entry items key seq -> seq ≠ [] -> truthy (JDict items) = true.
Proof.
  unfold seq_entry. destruct items as [|kv items]; [|done].
  cbn. intros [= <-]. done.
Qed.

Lemma dates_of_rows (seqs : component -> list json) (dates : list json) :
  date <$> imap (fun j d => row_of_day seqs j d) dates = dates.
Proof.
  apply list_eq. intros i. rewrite list_lookup_fmap, list_lookup_imap.
  by destruct (dates !! i).
Qed.

Section Normalizer_properties.

Variable to_datetime_other : list json -> result (list datetime64).

(** On a block of lists with at least one date the normalizer returns a
    frame with one record per date, in date order, as soon as pandas accepts
    the date column. *)
Lemma make_daily_dataframe_block (items : list (string * json))
    (dates : list json) (seqs : component -> list json) (parsed : list datetime64) :
  daily_block items dates seqs ->
  dates ≠ [] ->
  to_datetime to_datetime_other dates = Returns parsed ->
  make_daily_dataframe to_datetime_other (JDict items)
  = Returns (Some (mkDataFrame ["date"; "tmax"; "tmin"; "precip_mm"; "weather_text"]
                               (imap (fun i _ => record_of_day parsed seqs i) dates))).
Proof.
  intros (Htime & Hseq & Hhash) Hne Hparsed. unfold make_daily_dataframe.
  rewrite (seq_entry_truthy _ _ _ Htime Hne). cbn [negb py_get mbind result_bind].
  pose proof (Hseq Max_temperature) as Hmax.
  pose proof (Hseq Min_temperature) as Hmin.
  pose proof (Hseq Precipitation) as Hpre.
  pose proof (Hseq Weather_code) as Hcode.
  unfold seq_entry in Htime, Hmax, Hmin, Hpre, Hcode. cbn [component_key] in *.
  rewrite Htime, Hmax, Hmin, Hpre, Hcode. cbn [py_iter mbind result_bind].
  rewrite (daily_rows_lists seqs Hhash). cbn [mbind result_bind app Nat.add].
  rewrite pd_DataFrame_columns
    by (intros Hnil; apply (f_equal length) in Hnil;
        rewrite length_imap in Hnil; by destruct dates).
  unfold df_getitem_date, df_setitem_date. cbn [columns records].
  rewrite bool_decide_eq_true_2 by constructor.
  rewrite dates_of_rows. cbn [mbind result_bind]. rewrite Hparsed.
  cbn [mbind result_bind]. do 3 f_equal. apply list_eq. intros i. rewrite !list_lookup_imap.
  by destruct (dates !! i).
Qed.

(** C1.  When the date list has [n] entries and the list of one component is
    shorter, the normalizer raises nothing, returns [n] records, and the
    records from the component's length on hold [None] in that component's
    cell. *)
Theorem make_daily_dataframe_short_component (items : list (string * json))
    (dates : list json) (seqs : component -> list json) (parsed : list datetime64)
    (c : component) :
  daily_block items dates seqs ->
  to_datetime to_datetime_other dates = Returns parsed ->
  (length (seqs c) < length dates)%nat ->
  exists df : DataFrame datetime64,
    make_daily_dataframe to_datetime_other (JDict items) = Returns (Some df) /\
    length (records df) = length dates /\
    forall i : nat, (length (seqs c) <= i < length dates)%nat ->
      exists r : Row datetime64, records df !! i = Some r /\ component_cell c r = JNull.
Proof.
  intros Hblock Hparsed Hshort.
  assert (Hne : dates ≠ []) by (intros ->; cbn in Hshort; lia).
  eexists. split; [exact (make_daily_dataframe_block _ _ _ _ Hblock Hne Hparsed)|].
  cbn [records]. split; [apply length_imap|].
  intros i [Hge Hlt]. exists (record_of_day parsed seqs i). split.
  - rewrite list_lookup_imap.
    destruct (lookup_lt_is_Some_2 dates i Hlt) as [d Hd]. by rewrite Hd.
  - unfold record_of_day, condition_cell.
    destruct c; cbn; by rewrite (lookup_ge_None_2 _ i Hge).
Qed.

(** C6.  Record [i] is built from index [i] of every list: its date is cell
    [i] of the converted date column, each of its three numeric cells is the
    component's item [i] or [None] when the list is too short, and its
    condition is the translator's text for code [i] or [None]; the records
    stand in the order of the dates, one per date. *)
Theorem make_daily_dataframe_record_at (items : list (string * json))
    (dates : list json) (seqs : component -> list json) (parsed : list datetime64) :
  daily_block items dates seqs ->
  dates ≠ [] ->
  to_datetime to_datetime_other dates = Returns parsed ->
  exists df : DataFrame datetime64,
    make_daily_dataframe to_datetime_other (JDict items) = Returns (Some df) /\
    length (records df) = length dates /\
    forall (i : nat) (d : json), dates !! i = Some d ->
      exists r : Row datetime64,
        records df !! i = Some r /\
        date r = default NaT (parsed !! i) /\
        tmax r = default JNull (seqs Max_temperature !! i) /\
        tmin r = default JNull (seqs Min_temperature !! i) /\
        precip_mm r = default JNull (seqs Precipitation !! i) /\
        match seqs Weather_code !! i with
        | Some code => exists text : string,
            weathercode_to_text code = Returns text /\ weather_text r = JStr text
        | None => weather_text r = JNull
        end.
Proof.
  intros Hblock Hne Hparsed.
  eexists. split; [exact (make_daily_dataframe_block _ _ _ _ Hblock Hne Hparsed)|].
  cbn [records]. split; [apply length_imap|].
  intros i d Hd. exists (record_of_day parsed seqs i).
  split; [by rewrite list_lookup_imap, Hd|].
  repeat (split; [reflexivity|]).
  unfold record_of_day, condition_cell. cbn [weather_text].
  destruct (seqs Weather_code !! i) as [code|] eqn:Hcode; [|reflexivity].
  eexists. split; [|reflexivity].
  destruct Hblock as (_ & _ & Hhash). unfold weathercode_to_text.
  by rewrite (proj1 (Forall_lookup _ _) Hhash i code Hcode).
Qed.

End Normalizer_properties.

Lemma three_day_block : daily_block three_day_items three_day_dates three_day_seqs.
Proof.
  split; [reflexivity|]. split; [intros []; reflexivity|].
  repeat constructor.
Qed.

Lemma make_daily_dataframe_short_component_example :
  exists df : DataFrame datetime64,
    make_daily_dataframe rejecting_other_formats (JDict three_day_items)
    = Returns (Some df) /\
    length (records df) = 3%nat /\
    forall i : nat, (1 <= i < 3)%nat ->
      exists r : Row datetime64, records df !! i = Some r /\ tmax r = JNull.
Proof.
  apply (make_daily_dataframe_short_component rejecting_other_formats
           three_day_items three_day_dates three_day_seqs
           [Timestamp (2024, 6, 1) 0 None; Timestamp (2024, 6, 2) 0 None;
            Timestamp (2024, 6, 3) 0 None]
           Max_temperature).
  - exact three_day_block.
  - reflexivity.
  - cbn. lia.
Defined.

Lemma make_daily_dataframe_record_at_example :
  exists df : DataFrame datetime64,
    make_daily_dataframe rejecting_other_formats (JDict three_day_items)
    = Returns (Some df) /\
    length (records df) = 3%nat /\
    forall (i : nat) (d : json), three_day_dates !! i = Some d ->
      exists r : Row datetime64,
        records df !! i = Some r /\
        date r = default NaT ([Timestamp (2024, 6, 1) 0 None; Timestamp (2024, 6, 2) 0 None;
            Timestamp (2024, 6, 3) 0 None] !! i) /\
        tmax r = default JNull (three_day_seqs Max_temperature !! i) /\
        tmin r = default JNull (three_day_seqs Min_temperature !! i) /\
        precip_mm r = default JNull (three_day_seqs Precipitation !! i) /\
        match three_day_seqs Weather_code !! i with
        | Some code => exists text : string,
            weathercode_to_text code = Returns text /\ weather_text r = JStr text
        | None => weather_text r = JNull
        end.
Proof.
  apply (make_daily_dataframe_record_at rejecting_other_formats
           three_day_items three_day_dates three_day_seqs
           [Timestamp (2024, 6, 1) 0 None; Timestamp (2024, 6, 2) 0 None;
            Timestamp (2024, 6, 3) 0 None]).
  - exact three_day_block.
  - discriminate.
  - reflexivity.
Defined.

(** ** Status codes *)

Lemma raise_for_status_rejected (resp : Response) :
  rejected_status resp -> raise_for_status resp = Raises (RequestException HTTPError).
Proof.
  unfold rejected_status, raise_for_status. intros [Hlo Hhi].
  apply Z.leb_le in Hlo. apply Z.ltb_lt in Hhi. by rewrite Hlo, Hhi.
Qed.

Lemma raise_for_status_accepted (resp : Response) :
  ~ rejected_status resp -> raise_for_status resp = Returns tt.
Proof.
  unfold rejected_status, raise_for_status. intros Hnot.
  destruct (Z.leb_spec 400 (status_code resp)); [|reflexivity].
  destruct (Z.ltb_spec (status_code resp) 600); [|reflexivity].
  exfalso. apply Hnot. lia.
Qed.

(** ** Scenarios of the normalizer *)

Section Normalizer_scenarios.

Variable to_datetime_other : list json -> result (list datetime64).

(** A falsy argument ([None], an empty dict) gives [None]. *)
Lemma make_daily_dataframe_falsy (daily_json : json) :
  truthy daily_json = false ->
  make_daily_dataframe to_datetime_other daily_json = Returns None.
Proof. intros Hfalsy. unfold make_daily_dataframe. by rewrite Hfalsy. Qed.

(** A non-empty dict whose ["time"] entry is missing or an empty list makes
    [df["date"]] fail: the frame built from no rows has no column. *)
Lemma make_daily_dataframe_no_dates (items : list (string * json)) :
  items ≠ [] ->
  seq_entry items "time" [] ->
  make_daily_dataframe to_datetime_other (JDict items) = Raises KeyError.
Proof.
  intros Hne Htime. unfold make_daily_dataframe, seq_entry in *.
  destruct items as [|kv items]; [done|].
  cbn [truthy negb py_get mbind result_bind]. rewrite Htime. reflexivity.
Qed.

(** C3.  The code at the inputs the claim names: a daily block whose date
    list is empty, and one with no ["time"] entry, both raise [KeyError]
    instead of giving an empty or absent result. *)
Theorem make_daily_dataframe_empty_time_raises :
  make_daily_dataframe to_datetime_other (JDict [("time", JList [])])
  = Raises KeyError /\
  make_daily_dataframe to_datetime_other
    (JDict [("temperature_2m_max", JList [JFloat 21.5])])
  = Raises KeyError.
Proof. split; by apply make_daily_dataframe_no_dates. Qed.

(** C5.  The round-trip scenario: the two-day payload gives exactly the two
    records of the specification, dated 2024-01-01 and 2024-01-02. *)
Theorem make_daily_dataframe_round_trip :
  make_daily_dataframe to_datetime_other round_trip_daily
  = Returns (Some
      {| columns := ["date"; "tmax"; "tmin"; "precip_mm"; "weather_text"];
         records :=
           [ mkRow (Timestamp (2024, 1, 1) 0 None)
                   (JFloat 10.0) (JFloat 2.0) (JFloat 0.0) (JStr "Clear sky");
             mkRow (Timestamp (2024, 1, 2) 0 None)
                   (JFloat 12.0) (JFloat 3.0) (JFloat 5.0) (JStr "Rain: Slight") ] |}).
Proof. reflexivity. Qed.

(** C7.  Whatever day count the fetch asked for, the table built from the
    fetched payload ([daily = data.get("daily", {})], then the normalizer)
    has one record per date of its daily block: no error and no padding
    when the series is shorter than requested. *)
Theorem fetched_forecast_length (lat lon : float) (days : Z) (net : network)
    (resp : Response) (rest : list http_outcome)
    (payload items : list (string * json))
    (dates : list json) (seqs : component -> list json) (parsed : list datetime64) :
  pending net = Responds resp :: rest ->
  ~ rejected_status resp ->
  json_body resp = Some (JDict payload) ->
  dict_lookup payload "daily" = Some (JDict items) ->
  daily_block items dates seqs ->
  dates ≠ [] ->
  to_datetime to_datetime_other dates = Returns parsed ->
  exists (data daily : json) (df : DataFrame datetime64),
    fst (fetch_weather lat lon days net) = Returns data /\
    py_get data "daily" (JDict []) = Returns daily /\
    make_daily_dataframe to_datetime_other daily = Returns (Some df) /\
    length (records df) = length dates.
Proof.
  intros Hpending Hacc Hbody Hdaily Hblock Hne Hparsed.
  exists (JDict payload), (JDict items). eexists. split; [|split; [|split]].
  - unfold fetch_weather, requests_get. rewrite Hpending. cbn.
    rewrite (raise_for_status_accepted _ Hacc). cbn. unfold resp_json.
    by rewrite Hbody.
  - cbn. by rewrite Hdaily.
  - exact (make_daily_dataframe_block _ _ _ _ _ Hblock Hne Hparsed).
  - apply length_imap.
Qed.

End Normalizer_scenarios.

(** Five days requested, three days delivered: three records. *)
Lemma fetched_forecast_length_example :
  exists (data daily : json) (df : DataFrame datetime64),
    fst (fetch_weather 52.52 13.41 5 (answering 200 (JDict three_day_payload)))
    = Returns data /\
    py_get data "daily" (JDict []) = Returns daily /\
    make_daily_dataframe rejecting_other_formats daily = Returns (Some df) /\
    length (records df) = 3%nat.
Proof.
  apply (fetched_forecast_length rejecting_other_formats
           52.52%float 13.41%float 5
           (answering 200 (JDict three_day_payload))
           (mkResponse 200 (Some (JDict three_day_payload))) []
           three_day_payload three_day_items three_day_dates three_day_seqs
           [Timestamp (2024, 6, 1) 0 None; Timestamp (2024, 6, 2) 0 None;
            Timestamp (2024, 6, 3) 0 None]).
  - reflexivity.
  - unfold rejected_status. cbn. lia.
  - reflexivity.
  - reflexivity.
  - exact three_day_block.
  - discriminate.
  - reflexivity.
Defined.

(** ** The date column *)

Lemma mapM_date_only (dates : list json) (days : list (Z * Z * Z)) :
  Forall2 writes_day dates days ->
  mapM date_only dates = Some ((fun d => Timestamp d 0 None) <$> days).
Proof.
  induction 1 as [|v d dates days (s & -> & Hday) _ IH]; [reflexivity|].
  cbn. rewrite Hday. cbn. by rewrite IH.
Qed.

Section Date_column.

Variable to_datetime_other : list json -> result (list datetime64).

(** C9, as the code has it.  The date cell is what [pandas.to_datetime]
    reads from the raw date: on a block whose dates are [YYYY-MM-DD]
    strings, every record is dated midnight of the day its raw date writes,
    with no zone.  The normalizer does not cut a datetime down to its day. *)
Theorem make_daily_dataframe_calendar_dates (items : list (string * json))
    (dates : list json) (seqs : component -> list json) (days : list (Z * Z * Z)) :
  daily_block items dates seqs ->
  dates ≠ [] ->
  Forall2 writes_day dates days ->
  exists df : DataFrame datetime64,
    make_daily_dataframe to_datetime_other (JDict items) = Returns (Some df) /\
    Forall (fun r => calendar_date (date r)) (records df) /\
    forall (i : nat) (d : Z * Z * Z), days !! i = Some d ->
      exists r : Row datetime64,
        records df !! i = Some r /\ date r = Timestamp d 0 None.
Proof.
  intros Hblock Hne Hdays.
  assert (Hparsed : to_datetime to_datetime_other dates
                    = Returns ((fun d => Timestamp d 0 None) <$> days)).
  { unfold to_datetime. by rewrite (mapM_date_only _ _ Hdays). }
  pose proof (Forall2_length _ _ _ Hdays) as Hlen.
  eexists. split; [exact (make_daily_dataframe_block _ _ _ _ _ Hblock Hne Hparsed)|].
  cbn [records]. split.
  - apply Forall_lookup. intros i r. rewrite list_lookup_imap.
    destruct (dates !! i) as [v|] eqn:Hv; [|discriminate]. intros [= <-].
    destruct (lookup_lt_is_Some_2 days i) as [d Hd].
    { rewrite <- Hlen. by apply lookup_lt_is_Some_1; exists v. }
    exists d. unfold record_of_day. cbn [date].
    by rewrite list_lookup_fmap, Hd.
  - intros i d Hd. exists (record_of_day ((fun d => Timestamp d 0 None) <$> days) seqs i).
    split.
    + rewrite list_lookup_imap.
      destruct (lookup_lt_is_Some_2 dates i) as [v Hv]; [|by rewrite Hv].
      rewrite Hlen. by apply lookup_lt_is_Some_1; exists d.
    + unfold record_of_day. cbn [date]. by rewrite list_lookup_fmap, Hd.
Qed.

End Date_column.

Lemma make_daily_dataframe_calendar_dates_example :
  exists df : DataFrame datetime64,
    make_daily_dataframe rejecting_other_formats (JDict three_day_items)
    = Returns (Some df) /\
    Forall (fun r => calendar_date (date r)) (records df) /\
    forall (i : nat) (d : Z * Z * Z),
      [(2024, 6, 1); (2024, 6, 2); (2024, 6, 3)] !! i = Some d ->
      exists r : Row datetime64,
        records df !! i = Some r /\ date r = Timestamp d 0 None.
Proof.
  apply (make_daily_dataframe_calendar_dates rejecting_other_formats
           three_day_items three_day_dates three_day_seqs
           [(2024, 6, 1); (2024, 6, 2); (2024, 6, 3)]).
  - exact three_day_block.
  - discriminate.
  - repeat (constructor; [eexists; split; reflexivity|]). constructor.
Defined.

(** C9 as stated fails on a raw date that carries a time: the record keeps
    06:00 as its time of day. *)
Lemma make_daily_dataframe_keeps_time_of_day :
  make_daily_dataframe rejecting_other_formats
    (JDict [("time", JList [JStr "2024-06-01T06:00"])])
  = Returns (Some
      {| columns := ["date"; "tmax"; "tmin"; "precip_mm"; "weather_text"];
         records := [ mkRow (Timestamp (2024, 6, 1) 21600000000000 None)
                            JNull JNull JNull JNull ] |}).
Proof. reflexivity. Qed.

(** ** The two HTTP wrappers *)

(** Every call sends exactly one request and consumes one outcome. *)
Lemma requests_get_once (rq : request) (net : network) :
  snd (requests_get rq net)
  = {| pending := tail (pending net); sent := sent net ++ [rq] |}.
Proof. unfold requests_get. by destruct (pending net) as [|[k|r] rest]. Qed.

(** The body of the fetcher, lines 45 to 63, on every run: it sends one
    request, never raises, and returns the decoded payload unchanged when
    the status is neither 4xx nor 5xx and the body decodes; it returns
    [None], with no second request, when the transport fails, when the
    status is 4xx or 5xx, and when the body is not JSON. *)
Theorem fetch_weather_payload_or_None (lat lon : float) (days : Z) (net : network) :
  snd (fetch_weather lat lon days net)
  = {| pending := tail (pending net);
       sent := sent net ++ [fetch_weather_request lat lon days] |} /\
  returned (fst (fetch_weather lat lon days net)) /\
  (forall resp rest payload,
     pending net = Responds resp :: rest ->
     ~ rejected_status resp ->
     json_body resp = Some payload ->
     fst (fetch_weather lat lon days net) = Returns payload) /\
  (pending net = [] -> fst (fetch_weather lat lon days net) = Returns JNull) /\
  (forall k rest,
     pending net = Fails k :: rest ->
     fst (fetch_weather lat lon days net) = Returns JNull) /\
  (forall resp rest,
     pending net = Responds resp :: rest ->
     rejected_status resp ->
     fst (fetch_weather lat lon days net) = Returns JNull) /\
  (forall resp rest,
     pending net = Responds resp :: rest ->
     json_body resp = None ->
     fst (fetch_weather lat lon days net) = Returns JNull).
Proof.
  unfold fetch_weather.
  pose proof (requests_get_once (fetch_weather_request lat lon days) net) as Honce.
  unfold requests_get in *.
  destruct (pending net) as [|[k|resp] rest] eqn:Hpending; cbn in Honce |- *;
    (split; [exact Honce|]).
  - repeat split; try done.
  - repeat split; try done.
  - destruct (decide (rejected_status resp)) as [Hrej|Hacc].
    + rewrite (raise_for_status_rejected _ Hrej). cbn.
      repeat split; try done. intros ? ? ? [= <- <-] Hacc. contradiction.
    + rewrite (raise_for_status_accepted _ Hacc). cbn. unfold resp_json.
      destruct (json_body resp) as [payload|] eqn:Hbody; cbn.
      * repeat split; try done.
        -- intros ? ? ? [= <- <-] _ Hsome. congruence.
        -- intros ? ? [= <- <-] Hrej. contradiction.
        -- intros ? ? [= <- <-] Hnone. congruence.
      * repeat split; try done. intros ? ? ? [= <- <-] _ Hsome. congruence.
Qed.

Lemma fetch_weather_payload_or_None_example :
  fst (fetch_weather 52.52 13.41 7
         {| pending := [Fails Timeout;
                        Responds (mkResponse 200 (Some (JDict three_day_payload)))];
            sent := [] |}) = Returns JNull /\
  fst (fetch_weather 52.52 13.41 7 (answering 503 (JDict three_day_payload)))
  = Returns JNull /\
  fst (fetch_weather 52.52 13.41 7 (answering 200 (JDict three_day_payload)))
  = Returns (JDict three_day_payload).
Proof.
  split; [|split].
  - destruct (fetch_weather_payload_or_None 52.52 13.41 7
                {| pending := [Fails Timeout;
                               Responds (mkResponse 200 (Some (JDict three_day_payload)))];
                   sent := [] |}) as (_ & _ & _ & _ & Hfails & _).
    eapply Hfails. reflexivity.
  - destruct (fetch_weather_payload_or_None 52.52 13.41 7
                (answering 503 (JDict three_day_payload)))
      as (_ & _ & _ & _ & _ & Hrejected & _).
    eapply Hrejected; [reflexivity|]. unfold rejected_status. cbn. lia.
  - destruct (fetch_weather_payload_or_None 52.52 13.41 7
                (answering 200 (JDict three_day_payload)))
      as (_ & _ & Hpayload & _).
    eapply Hpayload; [reflexivity| |reflexivity]. unfold rejected_status. cbn. lia.
Defined.


Section Resolver_properties.

Variable float_of_str : string -> option float.
Variable float_of_int : Z -> option float.

(** A first candidate that is a dict without ["lat"] makes [float(None)]
    raise [TypeError], which [except requests.RequestException] lets
    through. *)
Lemma geocode_location_missing_lat (query : string) (status : Z)
    (item : list (string * json)) (others : list json) :
  ~ (400 <= status < 600) ->
  dict_lookup item "lat" = None ->
  fst (geocode_location float_of_str float_of_int query
         (answering status (JList (JDict item :: others))))
  = Raises TypeError.
Proof.
  intros Hacc Hlat. unfold geocode_location, answering. cbn.
  rewrite raise_for_status_accepted by exact Hacc.
  cbn. by rewrite Hlat.
Qed.


(** C10.  On an accepted response whose first candidate is a dict with
    convertible coordinates, the resolver returns a location whose name is
    the query when the candidate has no ["display_name"], and the
    candidate's own ["display_name"] otherwise. *)
Theorem geocode_location_display_name (query : string) (net : network)
    (resp : Response) (rest : list http_outcome)
    (item : list (string * json)) (others : list json) (la lo : float) :
  pending net = Responds resp :: rest ->
  ~ rejected_status resp ->
  json_body resp = Some (JList (JDict item :: others)) ->
  py_float float_of_str float_of_int (default JNull (dict_lookup item "lat")) = Returns la ->
  py_float float_of_str float_of_int (default JNull (dict_lookup item "lon")) = Returns lo ->
  exists loc : Location,
    fst (geocode_location float_of_str float_of_int query net) = Returns (Some loc) /\
    lat loc = la /\
    lon loc = lo /\
    (dict_lookup item "display_name" = None -> name loc = JStr query) /\
    (forall v, dict_lookup item "display_name" = Some v -> name loc = v).
Proof.
  intros Hpending Hacc Hbody Hlat Hlon.
  unfold geocode_location, requests_get. rewrite Hpending. cbn.
  rewrite (raise_for_status_accepted _ Hacc). cbn. unfold resp_json. rewrite Hbody.
  cbn. rewrite Hlat. cbn. rewrite Hlon. cbn.
  eexists. split; [reflexivity|]. cbn.
  repeat split; [by intros ->|by intros v ->].
Qed.

End Resolver_properties.



(** A candidate without a display name is named after the query; one with a
    display name keeps it. *)
Lemma geocode_location_display_name_example :
  (exists loc : Location,
     fst (geocode_location decimal_float_of_str exact_float_of_int "Karachi"
            (answering 200 (JList [unnamed_candidate]))) = Returns (Some loc) /\
     lat loc = 24.8607%float /\
     lon loc = 67.0011%float /\
     name loc = JStr "Karachi") /\
  (exists loc : Location,
     fst (geocode_location decimal_float_of_str exact_float_of_int "paris"
            (answering 200 (JList [paris_candidate]))) = Returns (Some loc) /\
     lat loc = 48.8566%float /\
     lon loc = 2.3522%float /\
     name loc = JStr "Paris, France").
Proof.
  split.
  - destruct (geocode_location_display_name decimal_float_of_str exact_float_of_int
                "Karachi" (answering 200 (JList [unnamed_candidate]))
                (mkResponse 200 (Some (JList [unnamed_candidate]))) []
                [("lat", JStr "24.8607"); ("lon", JStr "67.0011")] []
                24.8607%float 67.0011%float)
      as (loc & Hloc & Hlat & Hlon & Hquery & _).
    + reflexivity.
    + unfold rejected_status. cbn. lia.
    + reflexivity.
    + reflexivity.
    + reflexivity.
    + exists loc. repeat split; try assumption. apply Hquery. reflexivity.
  - destruct (geocode_location_display_name decimal_float_of_str exact_float_of_int
                "paris" (answering 200 (JList [paris_candidate]))
                (mkResponse 200 (Some (JList [paris_candidate]))) []
                [("lat", JStr "48.8566"); ("lon", JStr "2.3522");
                 ("display_name", JStr "Paris, France")] []
                48.8566%float 2.3522%float)
      as (loc & Hloc & Hlat & Hlon & _ & Hnamed).
    + reflexivity.
    + unfold rejected_status. cbn. lia.
    + reflexivity.
    + reflexivity.
    + reflexivity.
    + exists loc. repeat split; try assumption. apply Hnamed. reflexivity.
Defined.

(** * Further properties of the code *)

(** ** The normalizer on any argument *)

Lemma bind_Returns {A B : Type} (m : result A) (f : A -> result B) (b : B) :
  m ≫= f = Returns b -> exists a : A, m = Returns a /\ f a = Returns b.
Proof. destruct m as [a|e]; [|discriminate]. intros Hf. by exists a. Qed.

(** Whatever the components are, the rows the loop returns carry the dates
    it ran over, in order, after the dates of the rows it started from. *)
Lemma daily_rows_dates (tmax tmin precip wcode : json) (dates : list json) :
  forall (i : nat) (rows rows' : list (Row json)),
    daily_rows tmax tmin precip wcode i dates rows = Returns rows' ->
    date <$> rows' = (date <$> rows) ++ dates.
Proof.
  induction dates as [|d dates IH]; intros i rows rows' Hrows.
  - cbn in Hrows. injection Hrows as <-. by rewrite app_nil_r.
  - cbn [daily_rows] in Hrows.
    apply bind_Returns in Hrows as (a & _ & Hrows).
    apply bind_Returns in Hrows as (b & _ & Hrows).
    apply bind_Returns in Hrows as (c & _ & Hrows).
    apply bind_Returns in Hrows as (w & _ & Hrows).
    rewrite (IH _ _ _ Hrows), fmap_app. cbn. by rewrite <- app_assoc.
Qed.

Section Normalizer_any_argument.

Variable to_datetime_other : list json -> result (list datetime64).


(** X1.  Whenever the normalizer returns a frame, its argument was a dict
    with at least one date, the frame has the five columns and one record
    per date, and the date cells are those pandas read from the dates in
    order: no frame is ever empty. *)
Theorem make_daily_dataframe_frame (v : json) (df : DataFrame datetime64) :
  make_daily_dataframe to_datetime_other v = Returns (Some df) ->
  exists (items : list (string * json)) (ds : list json) (parsed : list datetime64),
    v = JDict items /\
    py_iter (default (JList []) (dict_lookup items "time")) = Returns ds /\
    ds ≠ [] /\
    to_datetime to_datetime_other ds = Returns parsed /\
    columns df = ["date"; "tmax"; "tmin"; "precip_mm"; "weather_text"] /\
    length (records df) = length ds /\
    forall i : nat, (i < length ds)%nat ->
      date <$> records df !! i = Some (default NaT (parsed !! i)).
Proof.
  unfold make_daily_dataframe. destruct (truthy v) eqn:Htruthy; [|discriminate].
  cbn [negb]. destruct v as [| | | | | |items]; try discriminate.
  cbn [py_get mbind result_bind]. intros Hrun.
  apply bind_Returns in Hrun as (ds & Hds & Hrun).
  apply bind_Returns in Hrun as (rows & Hrows & Hrun).
  apply bind_Returns in Hrun as (col & Hcol & Hrun).
  apply bind_Returns in Hrun as (parsed & Hparsed & Hrun).
  injection Hrun as <-.
  apply daily_rows_dates in Hrows. cbn in Hrows.
  unfold df_getitem_date in Hcol.
  destruct rows as [|r rows]; [discriminate|].
  rewrite bool_decide_eq_true_2 in Hcol by constructor.
  injection Hcol as <-. change (date r :: list_fmap _ _ date rows) with (date <$> r :: rows) in Hparsed.
  rewrite Hrows in Hparsed.
  assert (Hlen : length (r :: rows) = length ds)
    by (rewrite <- Hrows; by rewrite length_fmap).
  exists items, ds, parsed.
  split; [done|]. split; [done|]. split; [by intros ->|]. split; [done|].
  unfold df_setitem_date. cbn [columns records pd_DataFrame].
  split; [by rewrite bool_decide_eq_true_2 by constructor|].
  split; [by rewrite length_imap|].
  intros i Hi. rewrite list_lookup_imap.
  destruct (lookup_lt_is_Some_2 (r :: rows) i) as [ri Hri]; [lia|].
  by rewrite Hri.
Qed.

(** X2.  The normalizer returns [None] exactly on a falsy argument ([None],
    an empty dict or list, zero, an empty string, [False]); on any other
    argument it returns a frame or raises. *)
Theorem make_daily_dataframe_None_iff_falsy (v : json) :
  make_daily_dataframe to_datetime_other v = Returns None <-> truthy v = false.
Proof.
  split.
  - unfold make_daily_dataframe. destruct (truthy v); [|done].
    cbn [negb]. intros Hrun.
    apply bind_Returns in Hrun as (dates & _ & Hrun).
    apply bind_Returns in Hrun as (tmax & _ & Hrun).
    apply bind_Returns in Hrun as (tmin & _ & Hrun).
    apply bind_Returns in Hrun as (precip & _ & Hrun).
    apply bind_Returns in Hrun as (wcode & _ & Hrun).
    apply bind_Returns in Hrun as (ds & _ & Hrun).
    apply bind_Returns in Hrun as (rows & _ & Hrun).
    apply bind_Returns in Hrun as (col & _ & Hrun).
    apply bind_Returns in Hrun as (parsed & _ & Hrun).
    discriminate.
  - intros Hfalsy. unfold make_daily_dataframe. by rewrite Hfalsy.
Qed.

End Normalizer_any_argument.

Lemma make_daily_dataframe_frame_example :
  exists (items : list (string * json)) (ds : list json) (parsed : list datetime64),
    JDict three_day_items = JDict items /\
    py_iter (default (JList []) (dict_lookup items "time")) = Returns ds /\
    ds ≠ [] /\
    to_datetime rejecting_other_formats ds = Returns parsed /\
    columns three_day_frame = ["date"; "tmax"; "tmin"; "precip_mm"; "weather_text"] /\
    length (records three_day_frame) = length ds /\
    forall i : nat, (i < length ds)%nat ->
      date <$> records three_day_frame !! i = Some (default NaT (parsed !! i)).
Proof.
  apply (make_daily_dataframe_frame rejecting_other_formats (JDict three_day_items)
           three_day_frame).
  reflexivity.
Defined.

Lemma make_daily_dataframe_None_iff_falsy_example :
  make_daily_dataframe rejecting_other_formats (JDict []) = Returns None /\
  make_daily_dataframe rejecting_other_formats JNull = Returns None /\
  truthy (JList [JInt 0]) = true.
Proof.
  split; [|split].
  - apply (make_daily_dataframe_None_iff_falsy rejecting_other_formats (JDict [])).
    reflexivity.
  - apply (make_daily_dataframe_None_iff_falsy rejecting_other_formats JNull).
    reflexivity.
  - reflexivity.
Defined.

(** ** Blocks of lists: what pandas rejects, null entries *)

Section Normalizer_blocks.

Variable to_datetime_other : list json -> result (list datetime64).

(** On a block of lists with at least one date the normalizer runs up to
    the conversion of the date column, and ends as the conversion does. *)
Lemma make_daily_dataframe_block_run (items : list (string * json))
    (dates : list json) (seqs : component -> list json) :
  daily_block items dates seqs ->
  dates ≠ [] ->
  make_daily_dataframe to_datetime_other (JDict items)
  = parsed ← to_datetime to_datetime_other dates;
    Returns (Some (mkDataFrame ["date"; "tmax"; "tmin"; "precip_mm"; "weather_text"]
                               (imap (fun i _ => record_of_day parsed seqs i) dates))).
Proof.
  intros Hblock Hne.
  destruct (to_datetime to_datetime_other dates) as [parsed|e] eqn:Hparsed.
  - exact (make_daily_dataframe_block _ _ _ _ _ Hblock Hne Hparsed).
  - destruct Hblock as (Htime & Hseq & Hhash). unfold make_daily_dataframe.
    rewrite (seq_entry_truthy _ _ _ Htime Hne). cbn [negb py_get mbind result_bind].
    pose proof (Hseq Max_temperature) as Hmax.
    pose proof (Hseq Min_temperature) as Hmin.
    pose proof (Hseq Precipitation) as Hpre.
    pose proof (Hseq Weather_code) as Hcode.
    unfold seq_entry in Htime, Hmax, Hmin, Hpre, Hcode. cbn [component_key] in *.
    rewrite Htime, Hmax, Hmin, Hpre, Hcode. cbn [py_iter mbind result_bind].
    rewrite (daily_rows_lists seqs Hhash). cbn [mbind result_bind app Nat.add].
    rewrite pd_DataFrame_columns
      by (intros Hnil; apply (f_equal length) in Hnil;
          rewrite length_imap in Hnil; by destruct dates).
    unfold df_getitem_date. cbn [columns records].
    rewrite bool_decide_eq_true_2 by constructor.
    rewrite dates_of_rows. cbn [mbind result_bind]. by rewrite Hparsed.
Qed.

(** X3.  When pandas rejects the date column of a block of lists, the
    normalizer raises pandas' exception: no frame, and no [None]. *)
Theorem make_daily_dataframe_rejected_dates (items : list (string * json))
    (dates : list json) (seqs : component -> list json) (e : exn) :
  daily_block items dates seqs ->
  dates ≠ [] ->
  to_datetime to_datetime_other dates = Raises e ->
  make_daily_dataframe to_datetime_other (JDict items) = Raises e.
Proof.
  intros Hblock Hne Hrejected.
  rewrite (make_daily_dataframe_block_run _ _ _ Hblock Hne). by rewrite Hrejected.
Qed.

(** X4.  In the frame of a block of lists the condition of day [i] is
    [None] exactly when the code list ends before [i]; a [null] code inside
    the list is translated, and reads "Unknown". *)
Theorem make_daily_dataframe_condition_absent (items : list (string * json))
    (dates : list json) (seqs : component -> list json) (parsed : list datetime64) :
  daily_block items dates seqs ->
  dates ≠ [] ->
  to_datetime to_datetime_other dates = Returns parsed ->
  exists df : DataFrame datetime64,
    make_daily_dataframe to_datetime_other (JDict items) = Returns (Some df) /\
    forall (i : nat) (r : Row datetime64), records df !! i = Some r ->
      (weather_text r = JNull <-> (length (seqs Weather_code) <= i)%nat) /\
      (seqs Weather_code !! i = Some JNull -> weather_text r = JStr "Unknown").
Proof.
  intros Hblock Hne Hparsed.
  eexists. split; [exact (make_daily_dataframe_block _ _ _ _ _ Hblock Hne Hparsed)|].
  cbn [records]. intros i r. rewrite list_lookup_imap.
  destruct (dates !! i) as [d|]; [|discriminate]. intros [= <-].
  unfold record_of_day, condition_cell. cbn [weather_text].
  destruct (seqs Weather_code !! i) as [code|] eqn:Hcode.
  - apply lookup_lt_Some in Hcode as Hlt. split.
    + split; [discriminate|lia].
    + by intros [= ->].
  - apply lookup_ge_None_1 in Hcode. split; [tauto|discriminate].
Qed.

(** X5.  A component entry that is present but has no length ([null], a
    number, a boolean) makes the normalizer raise [TypeError] as soon as
    there is one date, even though a missing entry is read as an empty
    list. *)
Theorem make_daily_dataframe_unsized_component (items : list (string * json))
    (d : json) (dates : list json) (seqs : component -> list json)
    (c : component) (v : json) :
  seq_entry items "time" (d :: dates) ->
  (forall c', c' ≠ c -> seq_entry items (component_key c') (seqs c')) ->
  dict_lookup items (component_key c) = Some v ->
  unsized v = true ->
  make_daily_dataframe to_datetime_other (JDict items) = Raises TypeError.
Proof.
  intros Htime Hseq Hv Hunsized. unfold make_daily_dataframe.
  rewrite (seq_entry_truthy _ _ _ Htime) by done.
  cbn [negb py_get mbind result_bind]. unfold seq_entry in Htime. rewrite Htime.
  assert (Hlen : py_len v = Raises TypeError) by (by destruct v).
  destruct c; cbn [component_key] in Hv; rewrite Hv; cbn [from_option]; change (id v) with v;
    try (pose proof (Hseq Max_temperature ltac:(done)) as Hmax;
         unfold seq_entry in Hmax; cbn [component_key] in Hmax; rewrite Hmax);
    try (pose proof (Hseq Min_temperature ltac:(done)) as Hmin;
         unfold seq_entry in Hmin; cbn [component_key] in Hmin; rewrite Hmin);
    try (pose proof (Hseq Precipitation ltac:(done)) as Hpre;
         unfold seq_entry in Hpre; cbn [component_key] in Hpre; rewrite Hpre);
    try (pose proof (Hseq Weather_code ltac:(done)) as Hcode;
         unfold seq_entry in Hcode; cbn [component_key] in Hcode; rewrite Hcode);
    cbn [py_iter mbind result_bind daily_rows];
    rewrite ?item_or_None_list; cbn [mbind result_bind];
    unfold item_or_None, text_or_None; by rewrite Hlen.
Qed.

End Normalizer_blocks.

Lemma make_daily_dataframe_rejected_dates_example :
  make_daily_dataframe rejecting_other_formats (JDict no_such_day_items)
  = Raises ValueError.
Proof.
  apply (make_daily_dataframe_rejected_dates rejecting_other_formats
           no_such_day_items [JStr "2023-02-29"] no_such_day_seqs ValueError).
  - split; [reflexivity|]. split; [intros []; reflexivity|]. constructor.
  - discriminate.
  - reflexivity.
Defined.

Lemma make_daily_dataframe_condition_absent_example :
  exists df : DataFrame datetime64,
    make_daily_dataframe rejecting_other_formats (JDict null_code_items)
    = Returns (Some df) /\
    forall (i : nat) (r : Row datetime64), records df !! i = Some r ->
      (weather_text r = JNull <-> (2 <= i)%nat) /\
      (null_code_seqs Weather_code !! i = Some JNull -> weather_text r = JStr "Unknown").
Proof.
  apply (make_daily_dataframe_condition_absent rejecting_other_formats
           null_code_items three_day_dates null_code_seqs
           [Timestamp (2024, 6, 1) 0 None; Timestamp (2024, 6, 2) 0 None;
            Timestamp (2024, 6, 3) 0 None]).
  - split; [reflexivity|]. split; [intros []; reflexivity|]. repeat constructor.
  - discriminate.
  - reflexivity.
Defined.

Lemma make_daily_dataframe_unsized_component_example :
  make_daily_dataframe rejecting_other_formats (JDict null_precipitation_items)
  = Raises TypeError.
Proof.
  apply (make_daily_dataframe_unsized_component rejecting_other_formats
           null_precipitation_items (JStr "2024-06-01")
           [JStr "2024-06-02"; JStr "2024-06-03"] null_precipitation_seqs
           Precipitation JNull).
  - reflexivity.
  - intros [] Hother; solve [reflexivity | contradiction].
  - reflexivity.
  - reflexivity.
Defined.

(** ** The translator on any JSON value *)

(** X6.  The translator raises [TypeError] exactly on a list or a dict;
    [None] and every string read "Unknown", a boolean reads as the integer
    0 or 1, and a float equal to a code of the table reads as that code. *)
Theorem weathercode_to_text_any_value :
  (forall v : json, weathercode_to_text v = Raises TypeError <-> hashable v = false) /\
  weathercode_to_text JNull = Returns "Unknown" /\
  (forall s : string, weathercode_to_text (JStr s) = Returns "Unknown") /\
  (forall b : bool,
     weathercode_to_text (JBool b) = weathercode_to_text (JInt (if b then 1 else 0))) /\
  (forall (code : Z) (text : string), (code, text) ∈ mapping ->
     weathercode_to_text (JFloat (PrimFloat.of_uint63 (Uint63.of_Z code))) = Returns text).
Proof.
  split; [|split; [reflexivity|split; [reflexivity|split]]].
  - intros v. unfold weathercode_to_text. by destruct (hashable v).
  - by intros [].
  - intros code text Hin. unfold mapping in Hin.
    repeat (apply elem_of_cons in Hin as [[= -> ->]|Hin]; [reflexivity|]).
    by apply elem_of_nil in Hin.
Qed.

Lemma weathercode_to_text_any_value_example :
  weathercode_to_text (JList [JInt 3]) = Raises TypeError /\
  weathercode_to_text (JFloat 95.0) = Returns "Thunderstorm: Moderate".
Proof.
  destruct weathercode_to_text_any_value as (Hraises & _ & _ & _ & Hfloat).
  split.
  - apply Hraises. reflexivity.
  - apply (Hfloat 95 "Thunderstorm: Moderate"). unfold mapping.
    repeat first [apply list_elem_of_here | apply list_elem_of_further].
Defined.

(** ** The resolver on a list of candidates *)

Section Resolver_candidates.

Variable float_of_str : string -> option float.
Variable float_of_int : Z -> option float.

(** [float] raises no [RequestException]. *)
Lemma py_float_raises (x : json) (e : exn) :
  py_float float_of_str float_of_int x = Raises e ->
  e = TypeError \/ e = ValueError \/ e = OverflowError.
Proof.
  destruct x as [|b|n|f|s|l|items]; cbn; try (intros [= <-]; tauto); try discriminate.
  - destruct (float_of_int n); [discriminate|]. intros [= <-]. tauto.
  - destruct (float_of_str s); [discriminate|]. intros [= <-]. tauto.
Qed.

Lemma except_RequestException_other {A : Type} (e : exn) (handler : result A) :
  e = TypeError \/ e = ValueError \/ e = OverflowError ->
  except_RequestException (Raises e) handler = Raises e.
Proof. by intros [->|[->| ->]]. Qed.

(** X7.  Only the first candidate of the list is read: the candidates after
    it change neither the result nor the network. *)
Theorem geocode_location_first_candidate_only (query : string) (status : Z)
    (item : json) (others : list json) (rest : list http_outcome) (log : list request) :
  geocode_location float_of_str float_of_int query
    {| pending := Responds (mkResponse status (Some (JList (item :: others)))) :: rest;
       sent := log |}
  = geocode_location float_of_str float_of_int query
      {| pending := Responds (mkResponse status (Some (JList [item]))) :: rest;
         sent := log |}.
Proof.
  unfold geocode_location, requests_get. cbn.
  by destruct (raise_for_status _).
Qed.

(** X8.  On an accepted response with a non-empty list, what goes wrong
    with the first candidate is raised to the caller, the [except] clause
    notwithstanding: [AttributeError] when it is not a dict, and the error
    of [float] on its ["lat"], else on its ["lon"]. *)
Theorem geocode_location_candidate_errors (query : string) (net : network)
    (resp : Response) (rest : list http_outcome) (item : json) (others : list json) :
  pending net = Responds resp :: rest ->
  ~ rejected_status resp ->
  json_body resp = Some (JList (item :: others)) ->
  ((forall fields, item ≠ JDict fields) ->
     fst (geocode_location float_of_str float_of_int query net) = Raises AttributeError) /\
  (forall fields e,
     item = JDict fields ->
     py_float float_of_str float_of_int (default JNull (dict_lookup fields "lat")) = Raises e ->
     fst (geocode_location float_of_str float_of_int query net) = Raises e) /\
  (forall fields la e,
     item = JDict fields ->
     py_float float_of_str float_of_int (default JNull (dict_lookup fields "lat")) = Returns la ->
     py_float float_of_str float_of_int (default JNull (dict_lookup fields "lon")) = Raises e ->
     fst (geocode_location float_of_str float_of_int query net) = Raises e).
Proof.
  intros Hpending Hacc Hbody.
  unfold geocode_location, requests_get. rewrite Hpending. cbn.
  rewrite (raise_for_status_accepted _ Hacc). cbn. unfold resp_json. rewrite Hbody.
  cbn. split; [|split].
  - intros Hnodict. destruct item; try reflexivity. by destruct (Hnodict items).
  - intros fields e -> Hlat. cbn. rewrite Hlat. cbn.
    apply except_RequestException_other, (py_float_raises _ _ Hlat).
  - intros fields la e -> Hlat Hlon. cbn. rewrite Hlat. cbn. rewrite Hlon. cbn.
    apply except_RequestException_other, (py_float_raises _ _ Hlon).
Qed.

End Resolver_candidates.

Lemma geocode_location_candidate_errors_example :
  fst (geocode_location decimal_float_of_str exact_float_of_int "Atlantis"
         (answering 200 (JList [JStr "no such place"]))) = Raises AttributeError /\
  fst (geocode_location decimal_float_of_str exact_float_of_int "Atlantis"
         (answering 200 (JList [JDict [("lat", JStr "north"); ("lon", JStr "2.3522")]])))
  = Raises ValueError /\
  fst (geocode_location decimal_float_of_str exact_float_of_int "Atlantis"
         (answering 200 (JList [JDict [("lat", JStr "48.8566"); ("lon", JNull)]])))
  = Raises TypeError.
Proof.
  split; [|split].
  - destruct (geocode_location_candidate_errors decimal_float_of_str exact_float_of_int
                "Atlantis" (answering 200 (JList [JStr "no such place"]))
                (mkResponse 200 (Some (JList [JStr "no such place"]))) []
                (JStr "no such place") []) as (Hnodict & _).
    + reflexivity.
    + unfold rejected_status. cbn. lia.
    + reflexivity.
    + apply Hnodict. discriminate.
  - destruct (geocode_location_candidate_errors decimal_float_of_str exact_float_of_int
                "Atlantis"
                (answering 200 (JList [JDict [("lat", JStr "north"); ("lon", JStr "2.3522")]]))
                (mkResponse 200
                   (Some (JList [JDict [("lat", JStr "north"); ("lon", JStr "2.3522")]]))) []
                (JDict [("lat", JStr "north"); ("lon", JStr "2.3522")]) [])
      as (_ & Hlat & _).
    + reflexivity.
    + unfold rejected_status. cbn. lia.
    + reflexivity.
    + eapply Hlat; reflexivity.
  - destruct (geocode_location_candidate_errors decimal_float_of_str exact_float_of_int
                "Atlantis"
                (answering 200 (JList [JDict [("lat", JStr "48.8566"); ("lon", JNull)]]))
                (mkResponse 200
                   (Some (JList [JDict [("lat", JStr "48.8566"); ("lon", JNull)]]))) []
                (JDict [("lat", JStr "48.8566"); ("lon", JNull)]) [])
      as (_ & _ & Hlon).
    + reflexivity.
    + unfold rejected_status. cbn. lia.
    + reflexivity.
    + eapply Hlon; reflexivity.
Defined.

(** ** The memoised helpers *)

Section Cache_data_properties.

Context {K V : Type}.
Variable same_key : K -> K -> bool.
Variable func : K -> network -> result V * network.

(** A value a call returned is in the cache afterwards, and the same call
    returns it from there. *)
Lemma cache_data_again (key : K) (cache cache1 : list (K * V)) (net net1 : network) (v : V) :
  same_key key key = true ->
  cache_data same_key func key cache net = (Returns v, (cache1, net1)) ->
  forall net2 : network,
    cache_data same_key func key cache1 net2 = (Returns v, (cache1, net2)).
Proof.
  intros Hrefl. unfold cache_data.
  destruct (cache_read same_key cache key) as [stored|] eqn:Hread.
  - intros [= <- <- <-] net2. by rewrite Hread.
  - destruct (func key net) as [[v'|e] net']; [|discriminate].
    intros [= <- <- <-] net2. cbn. by rewrite Hrefl.
Qed.

(** A raised exception leaves the cache as it was. *)
Lemma cache_data_raises (key : K) (cache cache1 : list (K * V)) (net net1 : network) (e : exn) :
  cache_data same_key func key cache net = (Raises e, (cache1, net1)) -> cache1 = cache.
Proof.
  unfold cache_data. destruct (cache_read same_key cache key); [discriminate|].
  destruct (func key net) as [[v|e'] net']; [discriminate|]. by intros [= _ <- _].
Qed.

(** The network after a call: untouched on a hit, as the function left it
    on a miss. *)
Lemma cache_data_network (key : K) (cache : list (K * V)) (net : network) :
  snd (snd (cache_data same_key func key cache net))
  = match cache_read same_key cache key with
    | Some _ => net
    | None => snd (func key net)
    end.
Proof.
  unfold cache_data. destruct (cache_read same_key cache key); [reflexivity|].
  by destruct (func key net) as [[v|e] net'].
Qed.

End Cache_data_properties.

Lemma same_weather_key_refl (key : float * float * Z) : same_weather_key key key = true.
Proof.
  destruct key as [[la lo] days]. unfold same_weather_key.
  rewrite (proj2 (Leibniz.eqb_spec la la) eq_refl).
  rewrite (proj2 (Leibniz.eqb_spec lo lo) eq_refl).
  by rewrite Z.eqb_refl.
Qed.

Lemma fetch_weather_once (lat lon : float) (days : Z) (net : network) :
  snd (fetch_weather lat lon days net)
  = {| pending := tail (pending net);
       sent := sent net ++ [fetch_weather_request lat lon days] |}.
Proof.
  unfold fetch_weather.
  pose proof (requests_get_once (fetch_weather_request lat lon days) net) as Honce.
  by destruct (requests_get _ net).
Qed.

(** X9.  A payload the memoised fetcher returned, the absence signal
    included, is returned again for the same latitude, longitude and day
    count without any request, whatever the network would answer now. *)
Theorem cached_fetch_weather_again (lat lon : float) (days : Z)
    (st st1 : app_state) (data : json) :
  cached_fetch_weather lat lon days st = (Returns data, st1) ->
  forall net2 : network,
    cached_fetch_weather lat lon days (with_world st1 net2)
    = (Returns data, with_world st1 net2).
Proof.
  unfold cached_fetch_weather. intros Hcall net2.
  destruct (cache_data _ _ _ (weather_memo st) (world st)) as [r [memo net1]] eqn:Hfirst.
  injection Hcall as -> <-. cbn [with_world weather_memo world geocode_memo].
  by rewrite (cache_data_again _ _ _ _ _ _ _ _ (same_weather_key_refl _) Hfirst net2).
Qed.

Section Memoised_resolver.

Variable float_of_str : string -> option float.
Variable float_of_int : Z -> option float.

Lemma geocode_location_once (query : string) (net : network) :
  snd (geocode_location float_of_str float_of_int query net)
  = {| pending := tail (pending net); sent := sent net ++ [geocode_request query] |}.
Proof.
  unfold geocode_location.
  pose proof (requests_get_once (geocode_request query) net) as Honce.
  by destruct (requests_get _ net).
Qed.

(** X10.  What the memoised resolver returned for a query, a location or
    the absence signal, it returns again for the same query without any
    request: a failed lookup is remembered like a successful one. *)
Theorem cached_geocode_location_again (query : string) (st st1 : app_state)
    (found : option Location) :
  cached_geocode_location float_of_str float_of_int query st = (Returns found, st1) ->
  forall net2 : network,
    cached_geocode_location float_of_str float_of_int query (with_world st1 net2)
    = (Returns found, with_world st1 net2).
Proof.
  unfold cached_geocode_location. intros Hcall net2.
  destruct (cache_data _ _ _ (geocode_memo st) (world st)) as [r [memo net1]] eqn:Hfirst.
  injection Hcall as -> <-. cbn [with_world weather_memo world geocode_memo].
  by rewrite (cache_data_again _ _ _ _ _ _ _ _ (String.eqb_refl _) Hfirst net2).
Qed.

(** X11.  The memoised resolver sends a request exactly when the query is
    not in its cache, and then exactly one; a query differing in any
    character is another key.  A raised exception is not stored. *)
Theorem cached_geocode_location_requests (query : string) (st : app_state) :
  world (snd (cached_geocode_location float_of_str float_of_int query st))
  = match cache_read String.eqb (geocode_memo st) query with
    | Some _ => world st
    | None => {| pending := tail (pending (world st));
                 sent := sent (world st) ++ [geocode_request query] |}
    end /\
  (forall e : exn,
     fst (cached_geocode_location float_of_str float_of_int query st) = Raises e ->
     geocode_memo (snd (cached_geocode_location float_of_str float_of_int query st))
     = geocode_memo st) /\
  weather_memo (snd (cached_geocode_location float_of_str float_of_int query st))
  = weather_memo st.
Proof.
  unfold cached_geocode_location.
  pose proof (cache_data_network String.eqb
                (geocode_location float_of_str float_of_int)
                query (geocode_memo st) (world st)) as Hnet.
  destruct (cache_data _ _ _ (geocode_memo st) (world st)) as [r [memo net1]] eqn:Hcall.
  cbn in Hnet |- *. split; [|split; [|reflexivity]].
  - rewrite Hnet. destruct (cache_read _ _ _); [reflexivity|apply geocode_location_once].
  - intros e ->. by apply cache_data_raises in Hcall.
Qed.

End Memoised_resolver.

Lemma cached_fetch_weather_again_example :
  cached_fetch_weather 52.52 13.41 7
    (with_world after_fetch_timeout (answering 200 (JDict three_day_payload)))
  = (Returns JNull,
     with_world after_fetch_timeout (answering 200 (JDict three_day_payload))).
Proof.
  apply (cached_fetch_weather_again 52.52 13.41 7
           (fresh_state {| pending := [Fails Timeout]; sent := [] |})
           after_fetch_timeout JNull).
  reflexivity.
Defined.

Lemma cached_geocode_location_again_example :
  cached_geocode_location decimal_float_of_str exact_float_of_int "Lahore"
    (with_world after_timeout (answering 200 (JList [paris_candidate])))
  = (Returns None, with_world after_timeout (answering 200 (JList [paris_candidate]))).
Proof.
  apply (cached_geocode_location_again decimal_float_of_str exact_float_of_int "Lahore"
           (fresh_state {| pending := [Fails Timeout]; sent := [] |})
           after_timeout None).
  reflexivity.
Defined.

(** "paris" is not "Paris": the lookup goes to the network, and the
    [TypeError] it ends in is not stored. *)
Lemma cached_geocode_location_requests_example :
  world (snd (cached_geocode_location decimal_float_of_str exact_float_of_int "paris"
                (knows_paris (answering 200 (JList [JDict []])))))
  = {| pending := []; sent := [geocode_request "paris"] |} /\
  geocode_memo (snd (cached_geocode_location decimal_float_of_str exact_float_of_int "paris"
                       (knows_paris (answering 200 (JList [JDict []])))))
  = geocode_memo (knows_paris (answering 200 (JList [JDict []]))).
Proof.
  destruct (cached_geocode_location_requests decimal_float_of_str exact_float_of_int
              "paris" (knows_paris (answering 200 (JList [JDict []]))))
    as (Hworld & Hraises & _).
  split; [exact Hworld|]. apply (Hraises TypeError). reflexivity.
Defined.

(** ** The script *)

Lemma lstrip_all_space (cs : list ascii) :
  Forall (fun c => py_isspace c = true) cs -> lstrip cs = [].
Proof. induction 1 as [|c cs Hc _ IH]; [reflexivity|]. cbn. by rewrite Hc. Qed.

Lemma cached_fetch_weather_sent (lat lon : float) (days : Z) (st : app_state) :
  exists new : list request,
    sent (world (snd (cached_fetch_weather lat lon days st))) = sent (world st) ++ new /\
    (new = [] \/ new = [fetch_weather_request lat lon days]).
Proof.
  unfold cached_fetch_weather.
  pose proof (cache_data_network same_weather_key
                (fun '(la, lo, d) => fetch_weather la lo d)
                (lat, lon, days) (weather_memo st) (world st)) as Hnet.
  destruct (cache_data _ _ _ (weather_memo st) (world st)) as [r [memo net1]].
  cbn in Hnet |- *. rewrite Hnet. destruct (cache_read _ _ _).
  - exists []. by rewrite app_nil_r; auto.
  - exists [fetch_weather_request lat lon days]. rewrite fetch_weather_once. auto.
Qed.




Section Script_properties.

Variable float_of_str : string -> option float.
Variable float_of_int : Z -> option float.
Variable to_datetime_other : list json -> result (list datetime64).

Lemma cached_geocode_location_sent (query : string) (st : app_state) :
  exists new : list request,
    sent (world (snd (cached_geocode_location float_of_str float_of_int query st)))
    = sent (world st) ++ new /\
    (new = [] \/ new = [geocode_request query]).
Proof.
  unfold cached_geocode_location.
  pose proof (cache_data_network String.eqb
                (geocode_location float_of_str float_of_int)
                query (geocode_memo st) (world st)) as Hnet.
  destruct (cache_data _ _ _ (geocode_memo st) (world st)) as [r [memo net1]].
  cbn in Hnet |- *. rewrite Hnet. destruct (cache_read _ _ _).
  - exists []. by rewrite app_nil_r; auto.
  - exists [geocode_request query]. rewrite geocode_location_once. auto.
Qed.

(** X12.  A submission whose location is missing, empty or made of
    whitespace only writes the "enter a location" notice and nothing else:
    no request is sent and no cache changes. *)
Theorem run_script_blank_location (location_input : option string) (forecast_days : Z)
    (st : app_state) :
  (forall s : string, location_input = Some s ->
     Forall (fun c => py_isspace c = true) (list_ascii_of_string s)) ->
  run_script float_of_str float_of_int to_datetime_other
    true location_input forecast_days st
  = (([Info_enter_location], Done), st).
Proof.
  intros Hblank. unfold run_script. cbn [negb].
  assert (Hq : str_strip (default "" location_input) = "").
  { unfold str_strip. destruct location_input as [s|]; [|reflexivity]. cbn.
    by rewrite (lstrip_all_space _ (Hblank s eq_refl)). }
  by rewrite Hq.
Qed.

(** X13.  One run of the script sends at most two requests: at most one to
    the geocoder, for the stripped location, and after it at most one to
    the weather service, which is only contacted for the coordinates of a
    location the page has announced. *)
Theorem run_script_requests (submit : bool) (location_input : option string)
    (forecast_days : Z) (st : app_state) :
  exists new : list request,
    sent (world (snd (run_script float_of_str float_of_int to_datetime_other
                        submit location_input forecast_days st)))
    = sent (world st) ++ new /\
    (new = [] \/
     new = [geocode_request (str_strip (default "" location_input))] \/
     exists (pretty : json) (la lo : float),
       Success_location pretty la lo
         ∈ fst (fst (run_script float_of_str float_of_int to_datetime_other
                       submit location_input forecast_days st)) /\
       (new = [fetch_weather_request la lo forecast_days] \/
        new = [geocode_request (str_strip (default "" location_input));
               fetch_weather_request la lo forecast_days])).
Proof.
  unfold run_script. set (q := str_strip (default "" location_input)).
  destruct submit; cbn [negb]; [|exists []; by rewrite app_nil_r; auto].
  destruct (String.eqb q ""); [exists []; by rewrite app_nil_r; auto|].
  destruct (cached_geocode_location_sent q st) as (new1 & Hsent1 & Hnew1).
  destruct (cached_geocode_location _ _ q st) as [found st1]. cbn [snd] in Hsent1.
  destruct found as [[loc|]|e]; [|exists new1; cbn; intuition..].
  destruct (cached_fetch_weather_sent (lat loc) (lon loc) forecast_days st1)
    as (new2 & Hsent2 & Hnew2).
  destruct (cached_fetch_weather _ _ forecast_days st1) as [fetched st2].
  cbn [snd] in Hsent2.
  assert (Hstate : sent (world st2) = sent (world st) ++ new1 ++ new2)
    by (by rewrite Hsent2, Hsent1, app_assoc).
  assert (Hcases :
    new1 ++ new2 = [] \/
    new1 ++ new2 = [geocode_request q] \/
    new1 ++ new2 = [fetch_weather_request (lat loc) (lon loc) forecast_days] \/
    new1 ++ new2 = [geocode_request q;
                    fetch_weather_request (lat loc) (lon loc) forecast_days])
    by (destruct Hnew1 as [-> | ->], Hnew2 as [-> | ->]; cbn; auto).
  assert (Hshown : forall (more : list notice),
    Success_location (name loc) (lat loc) (lon loc)
      ∈ [Success_location (name loc) (lat loc) (lon loc)] ++ more)
    by (intros more; apply list_elem_of_here).
  exists (new1 ++ new2).
  destruct fetched as [data|e]; cbn [fst snd].
  - destruct (truthy data); cbn [negb].
    + destruct (weather_page to_datetime_other data) as [shown [|e|df]]; cbn [fst snd];
        (split; [exact Hstate|]);
        (destruct Hcases as [?|[?|Hboth]]; [by left|by right; left|]);
        right; right; exists (name loc), (lat loc), (lon loc);
        (split; [apply Hshown|exact Hboth]).
    + split; [exact Hstate|].
      destruct Hcases as [?|[?|Hboth]]; [by left|by right; left|].
      right; right. exists (name loc), (lat loc), (lon loc).
      split; [apply Hshown|exact Hboth].
  - split; [exact Hstate|].
    destruct Hcases as [?|[?|Hboth]]; [by left|by right; left|].
    right; right. exists (name loc), (lat loc), (lon loc).
    split; [apply list_elem_of_here|exact Hboth].
Qed.

End Script_properties.

Section Script_scenarios.

Variable float_of_str : string -> option float.
Variable float_of_int : Z -> option float.
Variable to_datetime_other : list json -> result (list datetime64).

(** X14.  When the lookup of a location not yet in the cache fails in
    transit, the page reports "location not found" after one request, and
    every later submission of the same location reports it again without a
    request, whatever the network would answer by then. *)
Theorem run_script_failure_remembered (location_input : option string)
    (forecast_days : Z) (st : app_state) (k : request_exception)
    (rest : list http_outcome) :
  str_strip (default "" location_input) ≠ "" ->
  cache_read String.eqb (geocode_memo st) (str_strip (default "" location_input)) = None ->
  pending (world st) = Fails k :: rest ->
  exists st1 : app_state,
    run_script float_of_str float_of_int to_datetime_other
      true location_input forecast_days st
    = (([Error_location_not_found], Done), st1) /\
    sent (world st1)
    = sent (world st) ++ [geocode_request (str_strip (default "" location_input))] /\
    forall net2 : network,
      run_script float_of_str float_of_int to_datetime_other
        true location_input forecast_days (with_world st1 net2)
      = (([Error_location_not_found], Done), with_world st1 net2).
Proof.
  set (q := str_strip (default "" location_input)). intros Hq Hmiss Hpending.
  apply String.eqb_neq in Hq.
  unfold run_script. fold q. cbn [negb]. rewrite Hq.
  unfold cached_geocode_location, cache_data. rewrite Hmiss.
  unfold geocode_location, requests_get. rewrite Hpending. cbn.
  eexists. split; [reflexivity|]. split; [reflexivity|].
  intros net2. cbn. by rewrite String.eqb_refl.
Qed.

(** X15.  A payload whose daily block has entries but no date aborts the
    page with [KeyError] once the current-weather part is written: neither
    the "no daily forecast" notice nor the forecast follows. *)
Theorem weather_page_daily_without_dates (payload daily : list (string * json))
    (shown : list notice) :
  current_weather_notices (default (JDict []) (dict_lookup payload "current_weather"))
  = (shown, None) ->
  dict_lookup payload "daily" = Some (JDict daily) ->
  daily ≠ [] ->
  seq_entry daily "time" [] ->
  weather_page to_datetime_other (JDict payload) = (shown, Aborted KeyError).
Proof.
  intros Hcurrent Hdaily Hne Htime. unfold weather_page. cbn [py_get].
  rewrite Hcurrent, Hdaily. cbn [default from_option mbind result_bind id].
  change (id (JDict daily)) with (JDict daily).
  by rewrite (make_daily_dataframe_no_dates _ _ Hne Htime).
Qed.


End Script_scenarios.

Lemma run_script_blank_location_example :
  run_script decimal_float_of_str exact_float_of_int rejecting_other_formats
    true (Some "   ") 7 (fresh_state (answering 200 (JList [paris_candidate])))
  = (([Info_enter_location], Done),
     fresh_state (answering 200 (JList [paris_candidate]))).
Proof.
  apply (run_script_blank_location decimal_float_of_str exact_float_of_int
           rejecting_other_formats (Some "   ") 7).
  intros s [= <-]. repeat constructor.
Defined.

Lemma run_script_failure_remembered_example :
  exists st1 : app_state,
    run_script decimal_float_of_str exact_float_of_int rejecting_other_formats
      true (Some " Lahore ") 7 (fresh_state {| pending := [Fails Timeout]; sent := [] |})
    = (([Error_location_not_found], Done), st1) /\
    sent (world st1) = [] ++ [geocode_request "Lahore"] /\
    forall net2 : network,
      run_script decimal_float_of_str exact_float_of_int rejecting_other_formats
        true (Some " Lahore ") 7 (with_world st1 net2)
      = (([Error_location_not_found], Done), with_world st1 net2).
Proof.
  apply (run_script_failure_remembered decimal_float_of_str exact_float_of_int
           rejecting_other_formats (Some " Lahore ") 7
           (fresh_state {| pending := [Fails Timeout]; sent := [] |}) Timeout []).
  - discriminate.
  - reflexivity.
  - reflexivity.
Defined.

Lemma weather_page_daily_without_dates_example :
  weather_page rejecting_other_formats (JDict dateless_payload)
  = ([Subheader_current_weather;
      Markdown_current_weather (JFloat 18.3) (JFloat 9.4) (JInt 250)
                               (JStr "2024-06-01T12:00")],
     Aborted KeyError).
Proof.
  apply (weather_page_daily_without_dates rejecting_other_formats dateless_payload
           [("time", JList [])]).
  - reflexivity.
  - reflexivity.
  - discriminate.
  - reflexivity.
Defined.


Section Further_scenarios.

Variable float_of_str : string -> option float.
Variable float_of_int : Z -> option float.
Variable to_datetime_other : list json -> result (list datetime64).

(** X17.  For a remembered location, an accepted response whose body
    decodes to a falsy value (an empty object or list, [null], zero) is
    reported as a failed fetch, and that value is stored for the same
    coordinates and day count. *)
Theorem run_script_falsy_payload (location_input : option string) (forecast_days : Z)
    (st : app_state) (loc : Location) (resp : Response) (rest : list http_outcome)
    (data : json) :
  str_strip (default "" location_input) ≠ "" ->
  cache_read String.eqb (geocode_memo st) (str_strip (default "" location_input))
  = Some (Some loc) ->
  cache_read same_weather_key (weather_memo st) (lat loc, lon loc, forecast_days) = None ->
  pending (world st) = Responds resp :: rest ->
  ~ rejected_status resp ->
  json_body resp = Some data ->
  truthy data = false ->
  exists st1 : app_state,
    run_script float_of_str float_of_int to_datetime_other
      true location_input forecast_days st
    = (([Success_location (name loc) (lat loc) (lon loc);
         Error_fetch_failed; Markdown_divider; Caption_apis], Done), st1) /\
    cache_read same_weather_key (weather_memo st1) (lat loc, lon loc, forecast_days)
    = Some data.
Proof.
  set (q := str_strip (default "" location_input)).
  intros Hq Hknown Hmiss Hpending Hacc Hbody Hfalsy.
  apply String.eqb_neq in Hq.
  unfold run_script. fold q. cbn [negb]. rewrite Hq.
  unfold cached_geocode_location, cache_data. rewrite Hknown.
  unfold cached_fetch_weather, cache_data.
  cbn [weather_memo world geocode_memo]. rewrite Hmiss.
  unfold fetch_weather, requests_get. rewrite Hpending. cbn.
  rewrite (raise_for_status_accepted _ Hacc). cbn. unfold resp_json. rewrite Hbody.
  cbn. rewrite Hfalsy. cbn.
  eexists. split; [reflexivity|]. cbn [weather_memo cache_read].
  by rewrite (same_weather_key_refl (lat loc, lon loc, forecast_days)).
Qed.

(** X18.  The normalizer reads five entries of a daily block and nothing
    else: two non-empty blocks that agree on ["time"] and on the four
    component keys give the same result. *)
Theorem make_daily_dataframe_reads_five_entries (items items' : list (string * json)) :
  items ≠ [] ->
  items' ≠ [] ->
  dict_lookup items "time" = dict_lookup items' "time" ->
  (forall c : component,
     dict_lookup items (component_key c) = dict_lookup items' (component_key c)) ->
  make_daily_dataframe to_datetime_other (JDict items)
  = make_daily_dataframe to_datetime_other (JDict items').
Proof.
  intros Hne Hne' Htime Hseq. unfold make_daily_dataframe.
  assert (Htruthy : truthy (JDict items) = true) by (by destruct items).
  assert (Htruthy' : truthy (JDict items') = true) by (by destruct items').
  rewrite Htruthy, Htruthy'. cbn [negb py_get].
  pose proof (Hseq Max_temperature) as Hmax.
  pose proof (Hseq Min_temperature) as Hmin.
  pose proof (Hseq Precipitation) as Hpre.
  pose proof (Hseq Weather_code) as Hcode.
  cbn [component_key] in Hmax, Hmin, Hpre, Hcode.
  by rewrite Htime, Hmax, Hmin, Hpre, Hcode.
Qed.

End Further_scenarios.

Lemma run_script_falsy_payload_example :
  exists st1 : app_state,
    run_script decimal_float_of_str exact_float_of_int rejecting_other_formats
      true (Some "Paris") 7 (knows_paris (answering 200 (JDict [])))
    = (([Success_location (JStr "Paris, France") 48.8566 2.3522;
         Error_fetch_failed; Markdown_divider; Caption_apis], Done), st1) /\
    cache_read same_weather_key (weather_memo st1) (48.8566%float, 2.3522%float, 7)
    = Some (JDict []).
Proof.
  apply (run_script_falsy_payload decimal_float_of_str exact_float_of_int
           rejecting_other_formats (Some "Paris") 7
           (knows_paris (answering 200 (JDict [])))
           {| lat := 48.8566; lon := 2.3522; name := JStr "Paris, France" |}
           (mkResponse 200 (Some (JDict []))) [] (JDict [])).
  - discriminate.
  - reflexivity.
  - reflexivity.
  - reflexivity.
  - unfold rejected_status. cbn. lia.
  - reflexivity.
  - reflexivity.
Defined.

(** A block with sunrise times besides the three days gives the frame of
    the three days. *)
Lemma make_daily_dataframe_reads_five_entries_example :
  make_daily_dataframe rejecting_other_formats
    (JDict (("sunrise", JList [JStr "2024-06-01T04:45"]) :: three_day_items))
  = make_daily_dataframe rejecting_other_formats (JDict three_day_items).
Proof.
  apply (make_daily_dataframe_reads_five_entries rejecting_other_formats
           (("sunrise", JList [JStr "2024-06-01T04:45"]) :: three_day_items)
           three_day_items).
  - discriminate.
  - discriminate.
  - reflexivity.
  - intros []; reflexivity.
Defined.
